(** * agent_travaux.py: the agentic loop, its tool dispatcher and its tools

    A shallow embedding of [src/agent_travaux.py] and the properties of its
    specification.  The program is Python; the embedding keeps its dynamic
    typing (one type [pyval] of run-time values), its exceptions (the
    [outcome] type), its one piece of shared state (the session journal,
    threaded explicitly) and its one external call (the completion client,
    a function argument).

    Conventions of the embedding:
    - a Python [str] is a Rocq [string] holding its UTF-8 bytes;
    - a Python [int] is a [Z]; a Python [float] is a binary64 [float], with
      the interpreter's conversions written on the exact values
      ([SpecFloat]);
    - an [int] is written in decimal whatever its size: the interpreter's
      limit on that conversion (4300 digits) is also the limit of what JSON
      decoding gives the program, and is left out;
    - the interpreter is CPython 3.11 on a 64-bit machine; its allocator
      never fails: a sequence whose size its own checks admit is built,
      whatever memory that takes (the checks themselves are modelled: a
      count beyond the index range, a repetition too long for an index);
    - logging and printing change no value the program computes with, and
      are left out. *)

From Stdlib Require Import ZArith List String Ascii Bool Lia DecimalString.
From Stdlib Require Import Floats.PrimFloat Floats.SpecFloat Floats.FloatOps.
Import ListNotations.

Set Warnings "-inexact-float,-register-all".

Local Open Scope string_scope.
Local Open Scope Z_scope.

(** ** Run-time values *)

(** The keys of a [dict] are hashable: of the values JSON decodes to, the
    scalars. *)
Inductive pykey : Type :=
| KNone
| KBool (b : bool)
| KInt (z : Z)
| KFloat (f : float)
| KStr (s : string).

(** A [dict] keeps its items in insertion order. *)
Inductive pyval : Type :=
| VNone
| VBool (b : bool)
| VInt (z : Z)
| VFloat (f : float)
| VStr (s : string)
| VList (l : list pyval)
| VDict (d : list (pykey * pyval)).

Definition pydict : Type := list (pykey * pyval).

(** [type(v).__name__] *)
Definition type_name (v : pyval) : string :=
  match v with
  | VNone => "NoneType"
  | VBool _ => "bool"
  | VInt _ => "int"
  | VFloat _ => "float"
  | VStr _ => "str"
  | VList _ => "list"
  | VDict _ => "dict"
  end.

(** ** Exceptions

    An exception is its class and its message ([str(e)]); the messages are
    worded as CPython 3.11 words them. *)

Inductive exn_class : Type :=
| TypeError
| ValueError
| OverflowError
| ZeroDivisionError
| MemoryError
| APIError (name : string).

Record exn : Type := Exn { exn_type : exn_class; exn_msg : string }.

Definition str_exn (e : exn) : string := exn_msg e.

Inductive outcome (A : Type) : Type :=
| Return (a : A)
| Raise (e : exn).

Arguments Return {A} a.
Arguments Raise {A} e.

Definition bind {A B : Type} (m : outcome A) (k : A -> outcome B) : outcome B :=
  match m with
  | Return a => k a
  | Raise e => Raise e
  end.

Declare Scope py_scope.
Delimit Scope py_scope with py.
Notation "x <- m ;; k" := (bind m (fun x => k))
  (at level 100, m at next level, right associativity) : py_scope.
Local Open Scope py_scope.

Definition raise {A : Type} (c : exn_class) (msg : string) : outcome A :=
  Raise (Exn c msg).

(** ** Numbers *)

Definition prec : Z := 53.
Definition emax : Z := 1024.

(** The exact value [(-1)^s * m] as an unrounded binary float. *)
Definition SF_of_Z (z : Z) : spec_float :=
  match z with
  | Z0 => S754_zero false
  | Zpos p => S754_finite false p 0
  | Zneg p => S754_finite true p 0
  end.

(** [float(z)] for an [int]: the nearest binary64 (ties to even), or
    OverflowError when that is beyond the largest one. *)
Definition float_of_int (z : Z) : outcome float :=
  let f := SF2Prim (binary_normalize prec emax z 0 false) in
  if is_infinity f
  then raise OverflowError "int too large to convert to float"
  else Return f.

(** [a / b] for two [int]s, [b] not zero: the quotient, rounded once. *)
Definition int_true_divide (a b : Z) : outcome float :=
  let neg := xorb (a <? 0) (b <? 0) in
  match SF_of_Z a, SF_of_Z b with
  | S754_zero _, _ => Return (if neg then (-0)%float else 0%float)
  | x, y =>
      let q := SF2Prim (SFdiv prec emax x y) in
      if is_infinity q
      then raise OverflowError "integer division result too large for a float"
      else Return q
  end.

(** Round [n / d] ([d] positive) to the nearest integer, ties to even. *)
Definition round_half_even (n d : Z) : Z :=
  let q := n / d in
  let r := n mod d in
  match (2 * r ?= d) with
  | Lt => q
  | Gt => q + 1
  | Eq => if Z.even q then q else q + 1
  end.

(** [round(x)] for a [float]: an [int]. *)
Definition float_round (x : float) : outcome Z :=
  match Prim2SF x with
  | S754_nan => raise ValueError "cannot convert float NaN to integer"
  | S754_infinity _ => raise OverflowError "cannot convert float infinity to integer"
  | S754_zero _ => Return 0
  | S754_finite s m e =>
      let a := if 0 <=? e then Z.pos m * 2 ^ e
               else round_half_even (Z.pos m) (2 ^ (- e)) in
      Return (if s then - a else a)
  end.

(** [round(x, 2)] for a [float]: the decimal with two places nearest to
    [x] (ties to even), read back as the nearest binary64. *)
Definition float_round2 (x : float) : float :=
  match Prim2SF x with
  | S754_finite s m e =>
      if 0 <=? e then x
      else
        match round_half_even (100 * Z.pos m) (2 ^ (- e)) with
        | Zpos n => SF2Prim (SFdiv prec emax (S754_finite s n 0) (S754_finite false 100 0))
        | _ => if s then (-0)%float else 0%float
        end
  | _ => x
  end.

(** ** Operators on run-time values *)

(** A number: [bool] is a subclass of [int]. *)
Inductive number : Type :=
| NInt (z : Z)
| NFloat (f : float).

Definition as_number (v : pyval) : option number :=
  match v with
  | VBool b => Some (NInt (if b then 1 else 0))
  | VInt z => Some (NInt z)
  | VFloat f => Some (NFloat f)
  | _ => None
  end.

Definition as_index (v : pyval) : option Z :=
  match v with
  | VBool b => Some (if b then 1 else 0)
  | VInt z => Some z
  | _ => None
  end.

Definition to_float (n : number) : outcome float :=
  match n with
  | NInt z => float_of_int z
  | NFloat f => Return f
  end.

Fixpoint repeat_string (n : nat) (s : string) : string :=
  match n with
  | O => ""
  | S k => s ++ repeat_string k s
  end.

Definition is_sequence (v : pyval) : bool :=
  match v with
  | VStr _ | VList _ => true
  | _ => false
  end.

Definition unsupported_operand {A : Type} (op : string) (a b : pyval) : outcome A :=
  raise TypeError
    ("unsupported operand type(s) for " ++ op ++ ": '" ++ type_name a
       ++ "' and '" ++ type_name b ++ "'").

Definition not_an_int {A : Type} (v : pyval) : outcome A :=
  raise TypeError
    ("can't multiply sequence by non-int of type '" ++ type_name v ++ "'").

(** The largest index, [sys.maxsize]. *)
Definition PY_SSIZE_T_MAX : Z := 2 ^ 63 - 1.

(** [len(s)] for a [str]: its code points, which are the bytes of its
    encoding that do not continue a character. *)
Fixpoint len_str (s : string) : Z :=
  match s with
  | EmptyString => 0
  | String c r =>
      (if (128 <=? N_of_ascii c)%N && (N_of_ascii c <? 192)%N then 0 else 1) + len_str r
  end.

(** [seq * count] for a [str] or a [list] [seq].  The count is first
    converted to an index, which fails beyond the index range; a count
    below one gives the empty sequence; a repetition whose length is beyond
    the index range is refused, for a [str] with OverflowError and for a
    [list] with MemoryError (whose message is empty); the empty sequence
    repeats to itself. *)
Definition sequence_repeat (seq count : pyval) : outcome pyval :=
  match as_index count with
  | None => not_an_int count
  | Some n =>
      if (n <? - PY_SSIZE_T_MAX - 1) || (PY_SSIZE_T_MAX <? n) then
        raise OverflowError "cannot fit 'int' into an index-sized integer"
      else
        match seq with
        | VStr s =>
            if n <? 1 then Return (VStr "")
            else if PY_SSIZE_T_MAX / n <? len_str s then
              raise OverflowError "repeated string is too long"
            else
              match s with
              | EmptyString => Return (VStr "")
              | _ => Return (VStr (repeat_string (Z.to_nat n) s))
              end
        | VList l =>
            if (0 <? n) && (PY_SSIZE_T_MAX / n <? Z.of_nat (List.length l)) then
              raise MemoryError ""
            else
              match l with
              | [] => Return (VList [])
              | _ => Return (VList (List.concat (repeat l (Z.to_nat n))))
              end
        | _ => not_an_int count
        end
  end.

(** [a * b] *)
Definition py_mul (a b : pyval) : outcome pyval :=
  match as_number a, as_number b with
  | Some (NInt x), Some (NInt y) => Return (VInt (x * y))
  | Some x, Some y =>
      fx <- to_float x ;;
      fy <- to_float y ;;
      Return (VFloat (fx * fy)%float)
  | _, _ =>
      if is_sequence a then sequence_repeat a b
      else if is_sequence b then sequence_repeat b a
      else unsupported_operand "*" a b
  end.

(** [a / b] *)
Definition py_truediv (a b : pyval) : outcome float :=
  match as_number a, as_number b with
  | Some (NInt x), Some (NInt y) =>
      if y =? 0 then raise ZeroDivisionError "division by zero"
      else int_true_divide x y
  | Some x, Some y =>
      fx <- to_float x ;;
      fy <- to_float y ;;
      if (fy =? 0)%float then raise ZeroDivisionError "float division by zero"
      else Return (fx / fy)%float
  | _, _ => unsupported_operand "/" a b
  end.

(** [math.sqrt(x)] for a [float] *)
Definition math_sqrt (x : float) : outcome float :=
  if (x <? 0)%float then raise ValueError "math domain error"
  else Return (PrimFloat.sqrt x).

Definition no_round {A : Type} (v : pyval) : outcome A :=
  raise TypeError ("type " ++ type_name v ++ " doesn't define __round__ method").

(** [round(v)] *)
Definition py_round (v : pyval) : outcome Z :=
  match as_number v with
  | Some (NInt z) => Return z
  | Some (NFloat f) => float_round f
  | None => no_round v
  end.

(** [round(v, 2)] *)
Definition py_round2 (v : pyval) : outcome pyval :=
  match as_number v with
  | Some (NInt z) => Return (VInt z)
  | Some (NFloat f) => Return (VFloat (float_round2 f))
  | None => no_round v
  end.

(** ** Text: [str], [repr] and formatting *)

(** [str(z)] for an [int] *)
Definition str_int (z : Z) : string := NilZero.string_of_int (Z.to_int z).

(** Thousands separators, on the digits written least significant first. *)
Fixpoint commas (l : list ascii) : list ascii :=
  match l with
  | a :: b :: c :: ((_ :: _) as r) => a :: b :: c :: ","%char :: commas r
  | _ => l
  end.

(** [f"{z:,}"] for an [int] *)
Definition format_comma (z : Z) : string :=
  let digits := list_ascii_of_string (str_int (Z.abs z)) in
  (if z <? 0 then "-" else "") ++ string_of_list_ascii (rev (commas (rev digits))).

(** [s.replace(old, new)] for one-character [old] and [new] *)
Fixpoint replace_char (old new : ascii) (s : string) : string :=
  match s with
  | EmptyString => EmptyString
  | String c r => String (if Ascii.eqb c old then new else c) (replace_char old new r)
  end.

(** *** [repr] of a [float]: the shortest decimal that reads back as it *)

(** A positive rational [n / d] times [10 ^ x]. *)
Definition scale10 (n d x : Z) : Z * Z :=
  if 0 <=? x then (n * 10 ^ x, d) else (n, d * 10 ^ (- x)).

(** The nearest binary64 to the decimal [c * 10 ^ (- x)], [c] positive. *)
Definition float_of_decimal (c : positive) (x : Z) : float :=
  let (n, d) := scale10 (Z.pos c) 1 (- x) in
  SF2Prim (SFdiv prec emax (SF_of_Z n) (SF_of_Z d)).

(** The largest [p] with [10 ^ p <= n / d]. *)
Definition floor_log10 (n d : Z) : Z :=
  let ge10 p := let (a, b) := scale10 n d (- p) in b <=? a in
  let p0 := ((Z.log2 n - Z.log2 d) * 30103) / 100000 in
  if ge10 (p0 + 1) then p0 + 1
  else if ge10 p0 then p0
  else if ge10 (p0 - 1) then p0 - 1
  else p0 - 2.

(** The decimal with [k] significant digits nearest to [n / d] among those
    that read back as [f]: its digits and the number [x] of them after the
    point, or [None] when there is none. *)
Definition digits_at (f : float) (n d p : Z) (k : Z) : option (Z * Z) :=
  let x := k - 1 - p in
  let (a, b) := scale10 n d x in
  let lo := a / b in
  let r := a mod b in
  let back c := Leibniz.eqb (float_of_decimal (Z.to_pos c) x) f in
  match back lo, back (lo + 1) with
  | true, true =>
      match (2 * r ?= b) with
      | Lt => Some (lo, x)
      | Gt => Some (lo + 1, x)
      | Eq => Some (if Z.even lo then lo else lo + 1, x)
      end
  | true, false => Some (lo, x)
  | false, true => Some (lo + 1, x)
  | false, false => None
  end.

Fixpoint first_digits (f : float) (n d p : Z) (fuel : nat) (k : Z) : Z * Z :=
  match fuel with
  | O => (0, 0)
  | S fuel' =>
      match digits_at f n d p k with
      | Some r => r
      | None => first_digits f n d p fuel' (k + 1)
      end
  end.

Fixpoint strip_zeros (fuel : nat) (c x : Z) : Z * Z :=
  match fuel with
  | O => (c, x)
  | S fuel' => if c mod 10 =? 0 then strip_zeros fuel' (c / 10) (x - 1) else (c, x)
  end.

(** The shortest digits of a positive finite [f = m * 2 ^ e], and the
    position of the decimal point: [f] is [0.digits * 10 ^ decpt]. *)
Definition shortest_digits (f : float) (m : positive) (e : Z) : string * Z :=
  let (n, d) := if 0 <=? e then (Z.pos m * 2 ^ e, 1) else (Z.pos m, 2 ^ (- e)) in
  let p := floor_log10 n d in
  let (c0, x0) := first_digits f n d p 17 1 in
  let (c, x) := strip_zeros 17 c0 x0 in
  let ds := str_int c in
  (ds, Z.of_nat (String.length ds) - x).

Definition zeros (n : Z) : string := repeat_string (Z.to_nat n) "0".

(** [repr(f)], which is also [str(f)] *)
Definition float_repr (f : float) : string :=
  match Prim2SF f with
  | S754_nan => "nan"
  | S754_infinity s => if s then "-inf" else "inf"
  | S754_zero s => if s then "-0.0" else "0.0"
  | S754_finite s m e =>
      let (ds, decpt) := shortest_digits (abs f) m e in
      let n := Z.of_nat (String.length ds) in
      (if s then "-" else "") ++
      (if (-4 <? decpt) && (decpt <=? 16) then
         if decpt <=? 0 then "0." ++ zeros (- decpt) ++ ds
         else if decpt <? n then
           substring 0 (Z.to_nat decpt) ds ++ "." ++
           substring (Z.to_nat decpt) (Z.to_nat (n - decpt)) ds
         else ds ++ zeros (decpt - n) ++ ".0"
       else
         let ex := decpt - 1 in
         let exs := str_int (Z.abs ex) in
         substring 0 1 ds ++
         (if 1 <? n then "." ++ substring 1 (Z.to_nat (n - 1)) ds else "") ++
         "e" ++ (if ex <? 0 then "-" else "+") ++
         (if Z.abs ex <? 10 then "0" else "") ++ exs)
  end.

(** [str(v)], as an f-string applies it.  The one f-string of this program
    that formats a value of unknown type is reached with numbers only
    ([calculer_volume_formats_numbers] below), so the [repr] of a container
    is not spelled out. *)
Definition py_str (v : pyval) : string :=
  match v with
  | VNone => "None"
  | VBool b => if b then "True" else "False"
  | VInt z => str_int z
  | VFloat f => float_repr f
  | VStr s => s
  | VList _ | VDict _ => ""
  end.

(** ** Dictionaries *)

(** [hash(v)] succeeds on scalars only. *)
Definition as_key (v : pyval) : outcome pykey :=
  match v with
  | VNone => Return KNone
  | VBool b => Return (KBool b)
  | VInt z => Return (KInt z)
  | VFloat f => Return (KFloat f)
  | VStr s => Return (KStr s)
  | VList _ | VDict _ =>
      raise TypeError ("unhashable type: '" ++ type_name v ++ "'")
  end.

(** Two keys are the same key when they are equal ([==]): numbers by their
    exact value, whatever their type ([True == 1 == 1.0]); a NaN equals
    nothing (each decoded NaN is an object of its own). *)
Inductive key_class : Type :=
| CNone
| CStr (s : string)
| CInt (z : Z)
| CFloat (x : spec_float)
| CNaN.

Definition key_class_of (k : pykey) : key_class :=
  match k with
  | KNone => CNone
  | KStr s => CStr s
  | KBool b => CInt (if b then 1 else 0)
  | KInt z => CInt z
  | KFloat f =>
      match Prim2SF f with
      | S754_nan => CNaN
      | S754_zero _ => CInt 0
      | S754_infinity s => CFloat (S754_infinity s)
      | S754_finite s m e =>
          let a := if s then Z.neg m else Z.pos m in
          if 0 <=? e then CInt (a * 2 ^ e)
          else if Z.pos m mod 2 ^ (- e) =? 0 then CInt (a / 2 ^ (- e))
          else CFloat (S754_finite s m e)
      end
  end.

Definition spec_float_eqb (x y : spec_float) : bool :=
  match x, y with
  | S754_zero s, S754_zero t => Bool.eqb s t
  | S754_infinity s, S754_infinity t => Bool.eqb s t
  | S754_nan, S754_nan => true
  | S754_finite s m e, S754_finite t n f =>
      Bool.eqb s t && Pos.eqb m n && Z.eqb e f
  | _, _ => false
  end.

Definition key_class_eqb (a b : key_class) : bool :=
  match a, b with
  | CNone, CNone => true
  | CStr s, CStr t => String.eqb s t
  | CInt x, CInt y => Z.eqb x y
  | CFloat x, CFloat y => spec_float_eqb x y
  | _, _ => false
  end.

Definition key_eqb (a b : pykey) : bool :=
  key_class_eqb (key_class_of a) (key_class_of b).

(** [d.get(k)] for a hashable [k] *)
Fixpoint dict_find {V : Type} (d : list (pykey * V)) (k : pykey) : option V :=
  match d with
  | [] => None
  | (k', v) :: r => if key_eqb k' k then Some v else dict_find r k
  end.

(** [d[k] = v]: an equal key keeps its place (and the key object it was
    first written with); a new key goes last. *)
Fixpoint dict_set {V : Type} (d : list (pykey * V)) (k : pykey) (v : V) : list (pykey * V) :=
  match d with
  | [] => [(k, v)]
  | (k', v') :: r =>
      if key_eqb k' k then (k', v) :: r else (k', v') :: dict_set r k v
  end.

(** [d.get(k, default)] *)
Definition dict_get {V : Type} (d : list (pykey * V)) (k : pyval) (default : V) : outcome V :=
  key <- as_key k ;;
  Return (match dict_find d key with Some v => v | None => default end).

(** ** [json.dumps] *)

Definition quote : string := String (ascii_of_nat 34) "".
Definition backslash : string := String (ascii_of_nat 92) "".

Definition hex_digit (n : N) : ascii :=
  ascii_of_N (if (n <? 10)%N then 48 + n else 87 + n).

(** [\uXXXX] *)
Definition u_escape (cp : N) : string :=
  backslash ++ "u" ++
  String (hex_digit (cp / 4096 mod 16)) (String (hex_digit (cp / 256 mod 16))
    (String (hex_digit (cp / 16 mod 16)) (String (hex_digit (cp mod 16)) ""))).

(** A code point as JSON writes it under [ensure_ascii]: beyond the basic
    plane, a surrogate pair. *)
Definition u_escape_point (cp : N) : string :=
  if (cp <? 65536)%N then u_escape cp
  else
    let v := (cp - 65536)%N in
    u_escape (55296 + v / 1024) ++ u_escape (56320 + v mod 1024).

(** One ASCII character inside a JSON string. *)
Definition escape_ascii (ensure_ascii : bool) (c : ascii) : string :=
  let n := N_of_ascii c in
  if (n =? 34)%N then backslash ++ quote
  else if (n =? 92)%N then backslash ++ backslash
  else if (n =? 10)%N then backslash ++ "n"
  else if (n =? 13)%N then backslash ++ "r"
  else if (n =? 9)%N then backslash ++ "t"
  else if (n =? 8)%N then backslash ++ "b"
  else if (n =? 12)%N then backslash ++ "f"
  else if (n <? 32)%N then u_escape n
  else if (n =? 127)%N && ensure_ascii then u_escape n
  else String c "".

Definition low6 (c : ascii) : N := (N_of_ascii c mod 64)%N.

(** The inside of a JSON string: [s] is read as UTF-8 when the code points
    beyond ASCII are to be escaped. *)
Fixpoint escape_string (ensure_ascii : bool) (s : string) : string :=
  match s with
  | EmptyString => EmptyString
  | String c r =>
      let n := N_of_ascii c in
      if (n <? 128)%N then escape_ascii ensure_ascii c ++ escape_string ensure_ascii r
      else if negb ensure_ascii then String c (escape_string ensure_ascii r)
      else if (n <? 224)%N then
        match r with
        | String c1 r1 =>
            u_escape_point ((n mod 32) * 64 + low6 c1) ++ escape_string ensure_ascii r1
        | _ => u_escape_point n
        end
      else if (n <? 240)%N then
        match r with
        | String c1 (String c2 r2) =>
            u_escape_point ((n mod 16) * 4096 + low6 c1 * 64 + low6 c2)
              ++ escape_string ensure_ascii r2
        | _ => u_escape_point n
        end
      else
        match r with
        | String c1 (String c2 (String c3 r3)) =>
            u_escape_point ((n mod 8) * 262144 + low6 c1 * 4096 + low6 c2 * 64 + low6 c3)
              ++ escape_string ensure_ascii r3
        | _ => u_escape_point n
        end
  end.

Definition json_string (ensure_ascii : bool) (s : string) : string :=
  quote ++ escape_string ensure_ascii s ++ quote.

Definition json_float (f : float) : string :=
  match Prim2SF f with
  | S754_nan => "NaN"
  | S754_infinity s => if s then "-Infinity" else "Infinity"
  | _ => float_repr f
  end.

(** A key is written as a string. *)
Definition json_key (ensure_ascii : bool) (k : pykey) : string :=
  match k with
  | KStr s => json_string ensure_ascii s
  | KFloat f => quote ++ json_float f ++ quote
  | KBool b => quote ++ (if b then "true" else "false") ++ quote
  | KNone => quote ++ "null" ++ quote
  | KInt z => quote ++ str_int z ++ quote
  end.

Fixpoint join (sep : string) (l : list string) : string :=
  match l with
  | [] => ""
  | [x] => x
  | x :: r => x ++ sep ++ join sep r
  end.

(** [json.dumps(v, ensure_ascii=...)], with the default separators. *)
Fixpoint json_dumps (ensure_ascii : bool) (v : pyval) : string :=
  match v with
  | VNone => "null"
  | VBool b => if b then "true" else "false"
  | VInt z => str_int z
  | VFloat f => json_float f
  | VStr s => json_string ensure_ascii s
  | VList l => "[" ++ join ", " (map (json_dumps ensure_ascii) l) ++ "]"
  | VDict d =>
      "{" ++ join ", "
               (map (fun kv => match kv with
                               | (k, x) => json_key ensure_ascii k ++ ": "
                                             ++ json_dumps ensure_ascii x
                               end) d)
          ++ "}"
  end.

(** ** The tools *)

Definition obj (items : list (string * pyval)) : pyval :=
  VDict (map (fun kv => (KStr (fst kv), snd kv)) items).

Definition prop (type description : string) : pyval :=
  obj [("type", VStr type); ("description", VStr description)].

(** The schemas sent to the completion service. *)
Definition TOOLS : pyval :=
  VList [
    obj [("name", VStr "calculer_volume");
         ("description", VStr ("Calcule le volume d'une excavation ou d'un ouvrage TP. "
            ++ "Analogie : la topographie du chantier. "
            ++ "Retourne le volume en m³ et la masse estimée en tonnes."));
         ("input_schema", obj [
            ("type", VStr "object");
            ("properties", obj [
               ("longueur_m", prop "number" "Longueur en mètres");
               ("largeur_m", prop "number" "Largeur en mètres");
               ("profondeur_m", prop "number" "Profondeur/hauteur en mètres");
               ("materiau", obj [
                  ("type", VStr "string");
                  ("description", VStr "Type de matériau : terre, beton, eau, gravier");
                  ("enum", VList [VStr "terre"; VStr "beton"; VStr "eau"; VStr "gravier"]);
                  ("default", VStr "terre")])]);
            ("required", VList [VStr "longueur_m"; VStr "largeur_m"; VStr "profondeur_m"])])];
    obj [("name", VStr "estimer_cout_reseau");
         ("description", VStr ("Estime le coût d'un réseau TP (eau potable, assainissement, pluvial). "
            ++ "Analogie : le devis du sous-traitant canalisateur. "
            ++ "Retourne une fourchette de coût en euros HT."));
         ("input_schema", obj [
            ("type", VStr "object");
            ("properties", obj [
               ("type_reseau", obj [
                  ("type", VStr "string");
                  ("description", VStr "Nature du réseau");
                  ("enum", VList [VStr "eau_potable"; VStr "assainissement";
                                  VStr "pluvial"; VStr "telecom"])]);
               ("longueur_m", prop "number" "Linéaire en mètres");
               ("diametre_mm", prop "number" "Diamètre de canalisation en mm")]);
            ("required", VList [VStr "type_reseau"; VStr "longueur_m"])])];
    obj [("name", VStr "memo_chantier");
         ("description", VStr ("Mémorise une information clé dans le journal de chantier de la session. "
            ++ "Analogie : le journal de chantier papier du CdT. "
            ++ "Utile pour stocker des résultats intermédiaires à réutiliser."));
         ("input_schema", obj [
            ("type", VStr "object");
            ("properties", obj [
               ("cle", prop "string" "Identifiant de la note (ex: 'volume_bassin')");
               ("valeur", prop "string" "Valeur ou texte à mémoriser")]);
            ("required", VList [VStr "cle"; VStr "valeur"])])]
  ].

(** Densities (t/m³). *)
Definition _DENSITES : list (pykey * float) :=
  [(KStr "terre", 1.8%float); (KStr "beton", 2.4%float);
   (KStr "eau", 1.0%float); (KStr "gravier", 1.6%float)].

(** Unit costs (€HT/ml), [[min, max]]: the two-element lists of the source
    as pairs. *)
Definition _COUTS_RESEAU : list (pykey * (Z * Z)) :=
  [(KStr "eau_potable", (150, 350)); (KStr "assainissement", (200, 500));
   (KStr "pluvial", (180, 420)); (KStr "telecom", (80, 180))].

Definition calculer_volume (longueur_m largeur_m profondeur_m materiau : pyval)
  : outcome pyval :=
  surface <- py_mul longueur_m largeur_m ;;
  volume_m3 <- py_mul surface profondeur_m ;;
  densite <- dict_get _DENSITES materiau 1.8%float ;;
  masse_t <- py_mul volume_m3 (VFloat densite) ;;
  volume_arrondi <- py_round2 volume_m3 ;;
  masse_arrondie <- py_round2 masse_t ;;
  Return (obj [
    ("volume_m3", volume_arrondi);
    ("masse_t", masse_arrondie);
    ("materiau", materiau);
    ("dimensions", VStr (py_str longueur_m ++ "m × " ++ py_str largeur_m ++ "m × "
                           ++ py_str profondeur_m ++ "m"))]).

(** [f"{cout:,} €HT".replace(",", " ")] *)
Definition format_cout (cout : Z) : string :=
  replace_char ","%char " "%char (format_comma cout ++ " €HT").

Definition estimer_cout_reseau (type_reseau longueur_m diametre_mm : pyval)
  : outcome pyval :=
  fourchette <- dict_get _COUTS_RESEAU type_reseau (200, 500) ;;
  rapport <- py_truediv diametre_mm (VInt 200) ;;
  coeff_diam <- math_sqrt rapport ;;
  lineaire_min <- py_mul (VInt (fst fourchette)) longueur_m ;;
  produit_min <- py_mul lineaire_min (VFloat coeff_diam) ;;
  cout_min <- py_round produit_min ;;
  lineaire_max <- py_mul (VInt (snd fourchette)) longueur_m ;;
  produit_max <- py_mul lineaire_max (VFloat coeff_diam) ;;
  cout_max <- py_round produit_max ;;
  Return (obj [
    ("type_reseau", type_reseau);
    ("longueur_m", longueur_m);
    ("diametre_mm", diametre_mm);
    ("cout_min_ht", VStr (format_cout cout_min));
    ("cout_max_ht", VStr (format_cout cout_max));
    ("note", VStr "Fourniture et pose, hors VRD et déviations")]).

(** The journal is the one piece of state the tools share: a handler takes
    it and gives it back, also when it raises.  The [journal] entry of the
    answer is the journal itself, as the write left it; its one caller, the
    executor, serializes the answer before anything else touches the
    journal. *)
Definition memo_chantier (cle valeur : pyval) (_journal_chantier : pydict)
  : outcome pyval * pydict :=
  match as_key cle with
  | Raise e => (Raise e, _journal_chantier)
  | Return k =>
      let journal := dict_set _journal_chantier k valeur in
      (Return (obj [("status", VStr "mémorisé");
                    ("cle", cle);
                    ("journal", VDict journal)]),
       journal)
  end.

(** ** Calling a handler with the input mapping as its keyword arguments *)

(** A Python function: its name, its parameters with their defaults, and
    its body on the bound arguments. *)
Record handler : Type := Handler {
  fn_name : string;
  fn_params : list (string * option pyval);
  fn_body : list pyval -> pydict -> outcome pyval * pydict
}.

Definition is_str_key (k : pykey) : bool :=
  match k with
  | KStr _ => true
  | _ => false
  end.

Definition key_name (k : pykey) : string :=
  match k with
  | KStr s => s
  | _ => ""
  end.

Definition is_param (params : list (string * option pyval)) (name : string) : bool :=
  existsb (fun p => String.eqb (fst p) name) params.

Definition quoted (name : string) : string := "'" ++ name ++ "'".

(** ['a'], ['a' and 'b'], ['a', 'b', and 'c'] *)
Definition enumerate (names : list string) : string :=
  match names with
  | [] => ""
  | [a] => quoted a
  | [a; b] => quoted a ++ " and " ++ quoted b
  | _ => join ", " (map quoted (removelast names)) ++ ", and " ++ quoted (last names "")
  end.

(** The value bound to one parameter: the keyword argument of its name,
    else its default. *)
Definition bound_value (kwargs : pydict) (p : string * option pyval) : option pyval :=
  match dict_find kwargs (KStr (fst p)) with
  | Some v => Some v
  | None => snd p
  end.

Fixpoint all_bound (l : list (option pyval)) : list pyval :=
  match l with
  | [] => []
  | Some v :: r => v :: all_bound r
  | None :: r => all_bound r
  end.

(** Keyword arguments are matched to the parameters by name; a keyword that
    names no parameter is refused before a missing argument is. *)
Definition bind_arguments (fn : handler) (kwargs : pydict) : outcome (list pyval) :=
  if negb (forallb is_str_key (map fst kwargs)) then
    raise TypeError "keywords must be strings"
  else
    match filter (fun k => negb (is_param (fn_params fn) k)) (map key_name (map fst kwargs)) with
    | k :: _ =>
        raise TypeError
          (fn_name fn ++ "() got an unexpected keyword argument " ++ quoted k)
    | [] =>
        match map fst (filter (fun p => match bound_value kwargs p with
                                        | None => true
                                        | Some _ => false
                                        end) (fn_params fn)) with
        | [] => Return (all_bound (map (bound_value kwargs) (fn_params fn)))
        | missing =>
            raise TypeError
              (fn_name fn ++ "() missing " ++ str_int (Z.of_nat (List.length missing))
                 ++ " required positional argument"
                 ++ (match missing with [_] => "" | _ => "s" end)
                 ++ ": " ++ enumerate missing)
        end
    end.

Definition call (fn : handler) (kwargs : pydict) (journal : pydict)
  : outcome pyval * pydict :=
  match bind_arguments fn kwargs with
  | Raise e => (Raise e, journal)
  | Return args => fn_body fn args journal
  end.

(** A handler is called with as many arguments as it has parameters
    ([bind_arguments_length]); the last case of each body below is never
    reached. *)
Definition wrong_arity {A : Type} : outcome A :=
  raise TypeError "wrong number of arguments".

Definition calculer_volume_fn : handler :=
  Handler "calculer_volume"
    [("longueur_m", None); ("largeur_m", None); ("profondeur_m", None);
     ("materiau", Some (VStr "terre"))]
    (fun args journal =>
       match args with
       | [longueur_m; largeur_m; profondeur_m; materiau] =>
           (calculer_volume longueur_m largeur_m profondeur_m materiau, journal)
       | _ => (wrong_arity, journal)
       end).

Definition estimer_cout_reseau_fn : handler :=
  Handler "estimer_cout_reseau"
    [("type_reseau", None); ("longueur_m", None); ("diametre_mm", Some (VInt 200))]
    (fun args journal =>
       match args with
       | [type_reseau; longueur_m; diametre_mm] =>
           (estimer_cout_reseau type_reseau longueur_m diametre_mm, journal)
       | _ => (wrong_arity, journal)
       end).

Definition memo_chantier_fn : handler :=
  Handler "memo_chantier"
    [("cle", None); ("valeur", None)]
    (fun args journal =>
       match args with
       | [cle; valeur] => memo_chantier cle valeur journal
       | _ => (wrong_arity, journal)
       end).

(** Tool name -> Python function. *)
Definition _TOOL_REGISTRY : list (string * handler) :=
  [("calculer_volume", calculer_volume_fn);
   ("estimer_cout_reseau", estimer_cout_reseau_fn);
   ("memo_chantier", memo_chantier_fn)].

Fixpoint registry_find (registry : list (string * handler)) (name : string)
  : option handler :=
  match registry with
  | [] => None
  | (n, fn) :: r => if String.eqb n name then Some fn else registry_find r name
  end.

(** ** The tool executor *)

Definition unknown_tool_payload (tool_name : string) : pyval :=
  obj [("erreur", VStr ("Outil inconnu : " ++ tool_name))].

Definition error_payload (e : exn) (tool_name : string) (tool_input : pydict) : pyval :=
  obj [("erreur", VStr (str_exn e)); ("outil", VStr tool_name);
       ("input", VDict tool_input)].

Definition executer_outil (tool_name : string) (tool_input : pydict) (journal : pydict)
  : string * pydict :=
  match registry_find _TOOL_REGISTRY tool_name with
  | None => (json_dumps true (unknown_tool_payload tool_name), journal)
  | Some fn =>
      match call fn tool_input journal with
      | (Return resultat, journal') => (json_dumps false resultat, journal')
      | (Raise e, journal') =>
          (json_dumps true (error_payload e tool_name tool_input), journal')
      end
  end.

(** ** The conversation *)

(** A content block of the service's response: text, a tool invocation, or
    a block of another kind (it has no [text] and its [type] is not
    [tool_use]). *)
Inductive block : Type :=
| TextBlock (text : string)
| ToolUseBlock (id name : string) (input : pydict)
| OtherBlock (type : string).

Record tool_result : Type := ToolResult {
  tool_use_id : string;
  result_content : string
}.

Inductive content : Type :=
| Text (text : string)
| Blocks (blocks : list block)
| ToolResults (results : list tool_result).

Record message : Type := Message {
  role : string;
  message_content : content
}.

Record response : Type := Response {
  stop_reason : string;
  response_content : list block
}.

Record request : Type := Request {
  request_model : string;
  request_max_tokens : Z;
  request_system : string;
  request_tools : pyval;
  request_messages : list message
}.

(** [client.messages.create]: what the service answers to a request, given
    how many requests it has answered before; it returns a response or
    raises a transport error. *)
Definition client : Type := nat -> request -> outcome response.

Definition system_prompt : string :=
  "Tu es un assistant expert en travaux publics et ingénierie TP.
Tu aides à calculer des volumes, estimer des coûts de réseaux et synthétiser des analyses chantier.
Utilise les outils disponibles pour répondre avec précision.
Mémorise les résultats importants dans le journal de chantier.
Réponds en français, de manière professionnelle et structurée.
Termine toujours par un récapitulatif clair des résultats.".

Definition sentinel : string := "Agent arrêté : limite d'itérations atteinte.".

(** ** The agent loop *)

(** The variables of [run_agent], the journal, and (a ghost) the requests
    sent so far, oldest first. *)
Record state : Type := State {
  messages : list message;
  journal : pydict;
  iteration : Z;
  reponse_finale : string;
  sent : list request
}.

(** The text of the first block that has one, else the text held so far. *)
Fixpoint first_text (blocks : list block) (held : string) : string :=
  match blocks with
  | [] => held
  | TextBlock text :: _ => text
  | _ :: r => first_text r held
  end.

(** The [for block in response.content] of the tool case: the invocations
    run one after the other, each on the journal the previous one left. *)
Fixpoint run_tools (blocks : list block) (journal : pydict)
  : list tool_result * pydict :=
  match blocks with
  | [] => ([], journal)
  | ToolUseBlock id name input :: r =>
      let (result_str, journal1) := executer_outil name input journal in
      let (tool_results, journal2) := run_tools r journal1 in
      (ToolResult id result_str :: tool_results, journal2)
  | _ :: r => run_tools r journal
  end.

(** How one pass through the loop body ends. *)
Inductive pass : Type :=
| Continue (st : state)
| Break (st : state)
| Propagate (e : exn) (st : state).

Definition loop_body (create : client) (model : string) (st : state) : pass :=
  let count := iteration st + 1 in
  let request := Request model 4096 system_prompt TOOLS (messages st) in
  let log := (sent st ++ [request])%list in
  match create (List.length (sent st)) request with
  | Raise e =>
      Propagate e (State (messages st) (journal st) count (reponse_finale st) log)
  | Return response =>
      if String.eqb (stop_reason response) "end_turn" then
        Break (State (messages st) (journal st) count
                 (first_text (response_content response) (reponse_finale st)) log)
      else if String.eqb (stop_reason response) "tool_use" then
        let messages1 :=
          (messages st ++ [Message "assistant" (Blocks (response_content response))])%list in
        let (tool_results, journal1) :=
          run_tools (response_content response) (journal st) in
        Continue (State (messages1 ++ [Message "user" (ToolResults tool_results)])%list
                    journal1 count (reponse_finale st) log)
      else
        Break (State (messages st) (journal st) count (reponse_finale st) log)
  end.

(** How the loop ends: control leaves it (its condition fails, or a
    [break]), or an exception of the client does. *)
Inductive loop_end : Type :=
| Exited (st : state)
| Failed (e : exn) (st : state).

(** [while iteration < max_iterations]; [None] when [fuel] passes do not
    reach the end of the loop. *)
Fixpoint while_loop (fuel : nat) (create : client) (model : string)
  (max_iterations : Z) (st : state) : option loop_end :=
  if iteration st <? max_iterations then
    match fuel with
    | O => None
    | S fuel' =>
        match loop_body create model st with
        | Continue st' => while_loop fuel' create model max_iterations st'
        | Break st' => Some (Exited st')
        | Propagate e st' => Some (Failed e st')
        end
    end
  else Some (Exited st).

(** How the function ends: it returns its answer, or the exception leaves
    it. *)
Inductive ending : Type :=
| Returned (reponse : string) (st : state)
| Raised (e : exn) (st : state).

(** The state the loop starts in. *)
Definition initial (task : string) (_journal_chantier : pydict) : state :=
  State [Message "user" (Text task)] _journal_chantier 0 "" [].

(** The check after the loop, and the return. *)
Definition deliver (max_iterations : Z) (st : state) : ending :=
  if (max_iterations <=? iteration st) && String.eqb (reponse_finale st) ""
  then Returned sentinel
         (State (messages st) (journal st) (iteration st) sentinel (sent st))
  else Returned (reponse_finale st) st.

Definition run_agent (create : client) (_journal_chantier : pydict)
  (task model : string) (max_iterations : Z) : option ending :=
  match while_loop (Z.to_nat max_iterations) create model max_iterations
          (initial task _journal_chantier) with
  | None => None
  | Some (Failed e st) => Some (Raised e st)
  | Some (Exited st) => Some (deliver max_iterations st)
  end.

(** ** The command line *)

(** What [parse_args] returns. *)
Record namespace : Type := Namespace {
  arg_task : string;
  arg_model : string;
  arg_max_iterations : Z;
  arg_quiet : bool
}.

(** [main], from the parsed arguments and what the environment holds under
    ANTHROPIC_API_KEY ([None]: nothing): the exit code, and the state
    [run_agent] left if it was called.  Each of the three [except] clauses
    returns 1. *)
Definition main (args : namespace) (api_key : option string) (create : client)
  (_journal_chantier : pydict) : option (Z * option state) :=
  match api_key with
  | None | Some EmptyString => Some (1, None)
  | Some _ =>
      match run_agent create _journal_chantier (arg_task args) (arg_model args)
              (arg_max_iterations args) with
      | None => None
      | Some (Returned _ st) => Some (0, Some st)
      | Some (Raised _ st) => Some (1, Some st)
      end
  end.

(** * The vocabulary of the properties

    What the statements below are written with: the services the examples
    run the loop against, the journal's invariant, and, for the two
    calculators and the executor, the answers the specification describes
    beside the answers the code gives. *)

(** ** The loop *)

(** The state a pass ends in. *)
Definition state_of (p : pass) : state :=
  match p with
  | Continue st | Break st | Propagate _ st => st
  end.

(** The request a pass sends: the whole transcript, the catalog and the
    fixed instructions. *)
Definition request_of (model : string) (st : state) : request :=
  Request model 4096 system_prompt TOOLS (messages st).

(** A service that only ever asks for tools: no response carries the
    natural-completion signal, nor any other one. *)
Definition asks_for_tools (create : client) : Prop :=
  forall i req, exists blocks, create i req = Return (Response "tool_use" blocks).

(** A service that asks for no tool in particular, forever. *)
Definition idle_service : client := fun _ _ => Return (Response "tool_use" []).

(** The service asks for tools [k] times, then answers with a signal the
    loop does not know. *)
Definition unexpected_after (create : client) (k : nat) : Prop :=
  (forall i req, (i < k)%nat ->
     exists blocks, create i req = Return (Response "tool_use" blocks))
  /\ (forall req, exists resp,
        create k req = Return resp
        /\ stop_reason resp <> "end_turn" /\ stop_reason resp <> "tool_use").

(** A service that answers every request with [max_tokens]. *)
Definition truncating_service : client := fun _ _ => Return (Response "max_tokens" []).

Record invocation : Type := Invocation {
  inv_id : string;
  inv_name : string;
  inv_input : pydict
}.

(** The tool invocations of a response, in the order the service lists
    them. *)
Fixpoint invocations (blocks : list block) : list invocation :=
  match blocks with
  | [] => []
  | ToolUseBlock id name input :: r => Invocation id name input :: invocations r
  | _ :: r => invocations r
  end.

(** The journal after the invocations [invs] ran, one after the other. *)
Definition journal_after (invs : list invocation) (j : pydict) : pydict :=
  fold_left (fun j inv => snd (executer_outil (inv_name inv) (inv_input inv) j)) invs j.

(** The result of [inv], run on the journal [j]. *)
Definition result_of (inv : invocation) (j : pydict) : tool_result :=
  ToolResult (inv_id inv) (fst (executer_outil (inv_name inv) (inv_input inv) j)).

(** What a pass does with a response that asks for the tools [blocks]
    lists: [results] is the batch of tool results it builds. *)
Definition tool_pass (create : client) (model : string) (st : state)
  (blocks : list block) (results : list tool_result) : Prop :=
  let transcript :=
    (messages st ++ [Message "assistant" (Blocks blocks);
                     Message "user" (ToolResults results)])%list in
  let st' := State transcript (journal_after (invocations blocks) (journal st))
               (iteration st + 1) (reponse_finale st)
               (sent st ++ [request_of model st]) in
  (* the pass goes on to the next iteration, both turns appended *)
  loop_body create model st = Continue st'
  (* one result for each invocation *)
  /\ List.length results = List.length (invocations blocks)
  (* carrying its id, in the same order *)
  /\ map tool_use_id results = map inv_id (invocations blocks)
  (* each computed on the journal the invocations before it left *)
  /\ (forall k inv,
         nth_error (invocations blocks) k = Some inv ->
         nth_error results k
         = Some (result_of inv (journal_after (firstn k (invocations blocks)) (journal st))))
  (* and the next request, if one is sent, carries the two turns *)
  /\ sent (state_of (loop_body create model st'))
     = (sent st ++ [request_of model st;
                    Request model 4096 system_prompt TOOLS transcript])%list.

(** A service that asks for two journal writes under one key. *)
Definition writing_service : client :=
  fun _ _ =>
    Return (Response "tool_use"
              [TextBlock "Je note.";
               ToolUseBlock "toolu_01" "memo_chantier"
                 [(KStr "cle", VStr "volume"); (KStr "valeur", VStr "3750")];
               ToolUseBlock "toolu_02" "memo_chantier"
                 [(KStr "cle", VStr "volume"); (KStr "valeur", VStr "3750 m3")]]).

(** ** The journal *)

(** The number of items [d] holds under the key [k]. *)
Definition count_key {V : Type} (k : pykey) (d : list (pykey * V)) : nat :=
  List.length (filter (fun item => key_eqb (fst item) k) d).

(** The items of [d] under the other keys, in their order. *)
Definition other_items {V : Type} (k : pykey) (d : list (pykey * V)) : list (pykey * V) :=
  filter (fun item => negb (key_eqb (fst item) k)) d.

(** A [dict] holds at most one item under a key. *)
Definition unique_keys {V : Type} (d : list (pykey * V)) : Prop :=
  forall k, (count_key k d <= 1)%nat.

(** The journal writer, called with a key [cle] that hashes to [k] and a
    value, on the journal [j]: it answers with the journal [j'] it leaves. *)
Definition journal_write (cle valeur : pyval) (k : pykey) (j j' : pydict) : Prop :=
  (* the whole journal, as it now is, is returned *)
  memo_chantier cle valeur j
  = (Return (obj [("status", VStr "mémorisé"); ("cle", cle); ("journal", VDict j')]), j')
  (* the key holds the value *)
  /\ dict_find j' k = Some valeur
  (* under one item *)
  /\ count_key k j' = 1%nat
  (* and the items under the other keys are as they were *)
  /\ other_items k j' = other_items k j
  /\ (forall k', key_eqb k k' = false -> dict_find j' k' = dict_find j k').

(** ** The calculators *)

(** The density used for a material tag: the table's, else 1.8. *)
Definition densite_de (materiau : string) : float :=
  match dict_find _DENSITES (KStr materiau) with
  | Some densite => densite
  | None => 1.8%float
  end.

(** A value is a number: an [int] (or [bool]) or a [float]. *)
Definition is_number (v : pyval) : Prop := as_number v <> None.

(** [v[name]] for a [dict] [v] that has the key. *)
Definition field (name : string) (v : pyval) : option pyval :=
  match v with
  | VDict d => dict_find d (KStr name)
  | _ => None
  end.

(** The calculator's answer, from the rounded volume and mass. *)
Definition volume_answer (volume_m3 masse_t : pyval) (longueur_m largeur_m profondeur_m : pyval)
  (materiau : string) : pyval :=
  obj [("volume_m3", volume_m3);
       ("masse_t", masse_t);
       ("materiau", VStr materiau);
       ("dimensions", VStr (py_str longueur_m ++ "m × " ++ py_str largeur_m ++ "m × "
                              ++ py_str profondeur_m ++ "m"))].

(** C6, as the specification states it: the volume returned is the product
    of the three dimensions, and the mass is that volume times the
    density. *)
Definition volume_as_specified (l w d : float) (materiau : string) : pyval :=
  volume_answer (VFloat (l * w * d)) (VFloat (l * w * d * densite_de materiau))
    (VFloat l) (VFloat w) (VFloat d) materiau.

(** The estimator's answer, from the two rounded costs. *)
Definition cost_answer (type_reseau longueur_m diametre_mm : pyval) (cout_min cout_max : Z)
  : pyval :=
  obj [("type_reseau", type_reseau);
       ("longueur_m", longueur_m);
       ("diametre_mm", diametre_mm);
       ("cout_min_ht", VStr (format_cout cout_min));
       ("cout_max_ht", VStr (format_cout cout_max));
       ("note", VStr "Fourniture et pose, hors VRD et déviations")].

(** The estimate from a unit-cost range: what the estimator does once it
    has looked the range up. *)
Definition estimation (fourchette : Z * Z) (type_reseau longueur_m diametre_mm : pyval)
  : outcome pyval :=
  rapport <- py_truediv diametre_mm (VInt 200) ;;
  coeff_diam <- math_sqrt rapport ;;
  lineaire_min <- py_mul (VInt (fst fourchette)) longueur_m ;;
  produit_min <- py_mul lineaire_min (VFloat coeff_diam) ;;
  cout_min <- py_round produit_min ;;
  lineaire_max <- py_mul (VInt (snd fourchette)) longueur_m ;;
  produit_max <- py_mul lineaire_max (VFloat coeff_diam) ;;
  cout_max <- py_round produit_max ;;
  Return (cost_answer type_reseau longueur_m diametre_mm cout_min cout_max).

(** C7, as the specification states it: the cost range is the pair of the
    unit-cost bounds, each times the length times the square root of
    (diameter / 200). *)
Definition cost_range_as_specified (unit_min unit_max l d : float) : float * float :=
  (unit_min * l * PrimFloat.sqrt (d / 200), unit_max * l * PrimFloat.sqrt (d / 200))%float.

(** The answer that would carry this range as it is. *)
Definition cost_answer_as_specified (type_reseau longueur_m diametre_mm : pyval)
  (range : float * float) : pyval :=
  obj [("type_reseau", type_reseau);
       ("longueur_m", longueur_m);
       ("diametre_mm", diametre_mm);
       ("cout_min_ht", VFloat (fst range));
       ("cout_max_ht", VFloat (snd range));
       ("note", VStr "Fourniture et pose, hors VRD et déviations")].

(** ** The executor *)

(** The type a tool's schema gives a parameter, read from [TOOLS]. *)
Definition declared_type (tool param : string) : option pyval :=
  match TOOLS with
  | VList tools =>
      match find (fun t => match field "name" t with
                           | Some (VStr n) => String.eqb n tool
                           | _ => false
                           end) tools with
      | Some t =>
          match field "input_schema" t with
          | Some schema =>
              match field "properties" schema with
              | Some properties =>
                  match field param properties with
                  | Some p => field "type" p
                  | None => None
                  end
              | None => None
              end
          | None => None
          end
      | None => None
      end
  | _ => None
  end.

(** The JSON type of a value. *)
Definition json_type (v : pyval) : string :=
  match v with
  | VNone => "null"
  | VBool _ => "boolean"
  | VInt _ | VFloat _ => "number"
  | VStr _ => "string"
  | VList _ => "array"
  | VDict _ => "object"
  end.

(** The parameters whose schema says [number]. *)
Definition number_parameters : list (string * string) :=
  [("calculer_volume", "longueur_m"); ("calculer_volume", "largeur_m");
   ("calculer_volume", "profondeur_m");
   ("estimer_cout_reseau", "longueur_m"); ("estimer_cout_reseau", "diametre_mm")].

(** What the executor can answer, and when: there is no fourth case, and
    none in which an exception leaves it. *)
Inductive executor_answer (tool_name : string) (tool_input j : pydict)
  : string * pydict -> Prop :=
| Unknown_tool :
    registry_find _TOOL_REGISTRY tool_name = None ->
    executor_answer tool_name tool_input j
      (json_dumps true (obj [("erreur", VStr ("Outil inconnu : " ++ tool_name))]), j)
| Handler_returned (fn : handler) (resultat : pyval) (j' : pydict) :
    registry_find _TOOL_REGISTRY tool_name = Some fn ->
    call fn tool_input j = (Return resultat, j') ->
    executor_answer tool_name tool_input j (json_dumps false resultat, j')
| Handler_raised (fn : handler) (e : exn) (j' : pydict) :
    registry_find _TOOL_REGISTRY tool_name = Some fn ->
    call fn tool_input j = (Raise e, j') ->
    executor_answer tool_name tool_input j
      (json_dumps true
         (obj [("erreur", VStr (str_exn e)); ("outil", VStr tool_name);
               ("input", VDict tool_input)]),
       j').

(** The error payload for some error of the handler, the journal as it
    was. *)
Definition caught (tool_name : string) (tool_input j : pydict) : Prop :=
  exists e,
    executer_outil tool_name tool_input j
    = (json_dumps true
         (obj [("erreur", VStr (str_exn e)); ("outil", VStr tool_name);
               ("input", VDict tool_input)]),
       j).

(** ** Runs of the loop *)

(** The state a loop, and a call, ends in. *)
Definition end_state (l : loop_end) : state :=
  match l with
  | Exited st | Failed _ st => st
  end.

Definition ending_state (e : ending) : state :=
  match e with
  | Returned _ st | Raised _ st => st
  end.

(** The service answers its first [k] requests by asking for tools. *)
Definition tools_until (create : client) (k : nat) : Prop :=
  forall i req, (i < k)%nat ->
    exists blocks, create i req = Return (Response "tool_use" blocks).

(** The service answers every request. *)
Definition always_answers (create : client) : Prop :=
  forall i req, exists resp, create i req = Return resp.

(** A transcript: the task, then, for each pass that ran tools, the
    assistant's turn and the turn of its results, one for each invocation
    of that turn and with its id. *)
Inductive conversation (task : string) : list message -> Prop :=
| conversation_start : conversation task [Message "user" (Text task)]
| conversation_pass (msgs : list message) (blocks : list block)
    (results : list tool_result) :
    conversation task msgs ->
    map tool_use_id results = map inv_id (invocations blocks) ->
    conversation task
      (msgs ++ [Message "assistant" (Blocks blocks);
                Message "user" (ToolResults results)]).

(** The journal holds something under the key. *)
Definition has_key (j : pydict) (k : pykey) : Prop := dict_find j k <> None.

(** ** Answers that differ by one entry *)

(** The answer [r], its entry [name] set to [v]. *)
Definition with_entry (name : string) (v : pyval) (r : outcome pyval) : outcome pyval :=
  match r with
  | Return (VDict d) => Return (VDict (dict_set d (KStr name) v))
  | other => other
  end.

(** ** The catalog *)

Definition as_list (v : option pyval) : list pyval :=
  match v with
  | Some (VList l) => l
  | _ => []
  end.

Definition as_text (v : pyval) : list string :=
  match v with
  | VStr s => [s]
  | _ => []
  end.

(** The names [TOOLS] gives its tools. *)
Definition catalog_names : list string :=
  flat_map (fun t => match field "name" t with
                     | Some name => as_text name
                     | None => []
                     end) (as_list (Some TOOLS)).

(** The schema [TOOLS] gives a tool. *)
Definition schema_of (tool : string) : option pyval :=
  match find (fun t => match field "name" t with
                       | Some (VStr n) => String.eqb n tool
                       | _ => false
                       end) (as_list (Some TOOLS)) with
  | Some t => field "input_schema" t
  | None => None
  end.

(** The parameters the schema of a tool describes, and those it
    requires. *)
Definition schema_properties (tool : string) : list string :=
  match schema_of tool with
  | Some schema =>
      match field "properties" schema with
      | Some (VDict properties) => map key_name (map fst properties)
      | _ => []
      end
  | None => []
  end.

Definition schema_required (tool : string) : list string :=
  match schema_of tool with
  | Some schema => flat_map as_text (as_list (field "required" schema))
  | None => []
  end.

(** ** Services for the examples *)

(** A service that asks for one volume, then concludes. *)
Definition concluding_service : client :=
  fun i _ =>
    match i with
    | O => Return (Response "tool_use"
                     [ToolUseBlock "toolu_01" "calculer_volume"
                        [(KStr "longueur_m", VInt 10); (KStr "largeur_m", VInt 4);
                         (KStr "profondeur_m", VInt 2)]])
    | _ => Return (Response "end_turn"
                     [OtherBlock "thinking"; TextBlock "Volume : 80 m3."; TextBlock "Fin."])
    end.

(** A service that concludes at once, without a word. *)
Definition silent_service : client := fun _ _ => Return (Response "end_turn" []).

(** A service that asks for tools once, then is out of quota. *)
Definition limited_service : client :=
  fun i _ =>
    match i with
    | O => Return (Response "tool_use" [])
    | _ => Raise (Exn (APIError "RateLimitError") "rate limit")
    end.

(** ** Characters of a payload *)

(** Every character of [s] is ASCII. *)
Fixpoint ascii_only (s : string) : bool :=
  match s with
  | EmptyString => true
  | String c r => (N_of_ascii c <? 128)%N && ascii_only r
  end.

(** ** The text of a cost *)

(** [s] without its characters [x]. *)
Fixpoint without (x : ascii) (s : string) : string :=
  match s with
  | EmptyString => EmptyString
  | String c r => if Ascii.eqb c x then without x r else String c (without x r)
  end.

Definition is_digit (c : ascii) : bool :=
  (48 <=? N_of_ascii c)%N && (N_of_ascii c <=? 57)%N.

(** The characters that are neither of the two separators. *)
Definition kept (c : ascii) : bool :=
  negb (Ascii.eqb c ","%char) && negb (Ascii.eqb c " "%char).

(** * Properties *)

(** ** The loop *)

(** Every pass counts one iteration and sends one request. *)
Lemma loop_body_counts (create : client) (model : string) (st : state) :
  iteration (state_of (loop_body create model st)) = iteration st + 1
  /\ sent (state_of (loop_body create model st)) = (sent st ++ [request_of model st])%list.
Proof.
  unfold loop_body, request_of.
  destruct (create _ _) as [resp | e]; cbn; [ | split; reflexivity ].
  destruct (String.eqb (stop_reason resp) "end_turn"); cbn; [ split; reflexivity | ].
  destruct (String.eqb (stop_reason resp) "tool_use"); cbn; [ | split; reflexivity ].
  destruct (run_tools _ _); cbn; split; reflexivity.
Qed.

(** The loop ends within [max_iterations - iteration] passes. *)
Lemma while_loop_terminates (create : client) (model : string) (max_iterations : Z) :
  forall (fuel : nat) (st : state),
    max_iterations - iteration st <= Z.of_nat fuel ->
    exists e, while_loop fuel create model max_iterations st = Some e.
Proof.
  induction fuel as [ | fuel IH ]; intros st Hfuel; cbn [while_loop].
  - destruct (Z.ltb_spec (iteration st) max_iterations); [ lia | eexists; reflexivity ].
  - destruct (Z.ltb_spec (iteration st) max_iterations); [ | eexists; reflexivity ].
    pose proof (loop_body_counts create model st) as [Hit _].
    destruct (loop_body create model st) as [st' | st' | e st']; cbn in Hit.
    + apply IH. lia.
    + eexists; reflexivity.
    + eexists; reflexivity.
Qed.

(** [run_agent] always ends: with its answer, or with the client's
    exception. *)
Lemma run_agent_terminates (create : client) (j : pydict) (task model : string)
  (max_iterations : Z) :
  exists e, run_agent create j task model max_iterations = Some e.
Proof.
  unfold run_agent.
  destruct (while_loop_terminates create model max_iterations
              (Z.to_nat max_iterations) (initial task j)) as [e He].
  - cbn. lia.
  - rewrite He. destruct e; eexists; reflexivity.
Qed.

(** The pass that receives a request for tools. *)
Lemma loop_body_tools (create : client) (model : string) (st : state)
  (blocks : list block) :
  create (List.length (sent st)) (request_of model st) = Return (Response "tool_use" blocks) ->
  loop_body create model st
  = Continue (State (messages st
                       ++ [Message "assistant" (Blocks blocks);
                           Message "user" (ToolResults (fst (run_tools blocks (journal st))))])
                (snd (run_tools blocks (journal st)))
                (iteration st + 1) (reponse_finale st)
                (sent st ++ [request_of model st]))%list.
Proof.
  intros Hresp. unfold loop_body. fold (request_of model st). rewrite Hresp.
  change (String.eqb (stop_reason (Response "tool_use" blocks)) "end_turn") with false.
  change (String.eqb (stop_reason (Response "tool_use" blocks)) "tool_use") with true.
  cbn [response_content].
  destruct (run_tools blocks (journal st)) as [results j1]. cbn [fst snd].
  rewrite <- app_assoc. reflexivity.
Qed.

Lemma loop_body_tool_use (create : client) (model : string) (st : state)
  (blocks : list block) :
  create (List.length (sent st)) (request_of model st) = Return (Response "tool_use" blocks) ->
  exists st', loop_body create model st = Continue st'
              /\ reponse_finale st' = reponse_finale st.
Proof.
  intros Hresp. rewrite (loop_body_tools create model st blocks Hresp).
  eexists; split; reflexivity.
Qed.

Lemma while_loop_asks_for_tools (create : client) (model : string) (max_iterations : Z) :
  asks_for_tools create ->
  forall (fuel : nat) (st : state),
    Z.of_nat fuel = max_iterations - iteration st ->
    exists st', while_loop fuel create model max_iterations st = Some (Exited st')
                /\ iteration st' = max_iterations
                /\ List.length (sent st') = (List.length (sent st) + fuel)%nat
                /\ reponse_finale st' = reponse_finale st.
Proof.
  intros Htools.
  induction fuel as [ | fuel IH ]; intros st Hfuel; cbn [while_loop].
  - destruct (Z.ltb_spec (iteration st) max_iterations); [ lia | ].
    exists st. repeat split; lia.
  - destruct (Z.ltb_spec (iteration st) max_iterations); [ | lia ].
    destruct (Htools (List.length (sent st)) (request_of model st)) as [blocks Hresp].
    destruct (loop_body_tool_use create model st blocks Hresp) as (st1 & Hbody & Hrep).
    pose proof (loop_body_counts create model st) as [Hit Hsent].
    rewrite Hbody in *. cbn [state_of] in Hit, Hsent.
    destruct (IH st1) as (st' & Hloop & Hit' & Hsent' & Hrep'); [ lia | ].
    exists st'. repeat split; try assumption.
    + rewrite Hsent', Hsent, length_app. cbn. lia.
    + congruence.
Qed.

(** C1. With a budget of [N >= 1] iterations and a service that never
    signals natural completion (nor anything unexpected), the loop sends
    exactly [N] requests, stops after exactly [N] iterations, and
    [run_agent] returns the forced-stop sentinel. *)
Theorem run_agent_exhausts_budget (create : client) (j : pydict) (task model : string)
  (N : Z) :
  1 <= N ->
  asks_for_tools create ->
  exists st, run_agent create j task model N = Some (Returned sentinel st)
             /\ List.length (sent st) = Z.to_nat N
             /\ iteration st = N
             /\ sentinel = "Agent arrêté : limite d'itérations atteinte.".
Proof.
  intros HN Htools. unfold run_agent.
  destruct (while_loop_asks_for_tools create model N Htools (Z.to_nat N) (initial task j))
    as (st & Hloop & Hit & Hsent & Hrep); [ cbn; lia | ].
  rewrite Hloop. unfold deliver. rewrite Hit, Hrep, Z.leb_refl. cbn.
  eexists. repeat split; cbn; assumption.
Qed.

Lemma run_agent_exhausts_budget_witness :
  exists st, run_agent idle_service [] "mission" "modele" 3 = Some (Returned sentinel st)
             /\ List.length (sent st) = Z.to_nat 3
             /\ iteration st = 3
             /\ sentinel = "Agent arrêté : limite d'itérations atteinte.".
Proof.
  apply (run_agent_exhausts_budget idle_service [] "mission" "modele" 3).
  - lia.
  - intros i req. exists []. reflexivity.
Defined.

(** C10. With a budget [N <= 0] the loop body never runs: no request is
    sent, and [run_agent] returns the forced-stop sentinel (it neither
    fails nor returns an empty answer). *)
Theorem run_agent_without_budget (create : client) (j : pydict) (task model : string)
  (N : Z) :
  N <= 0 ->
  exists st, run_agent create j task model N = Some (Returned sentinel st)
             /\ sent st = []
             /\ sentinel = "Agent arrêté : limite d'itérations atteinte."
             /\ sentinel <> "".
Proof.
  intros HN. unfold run_agent.
  assert (Hloop : forall fuel, while_loop fuel create model N (initial task j)
                               = Some (Exited (initial task j))).
  { intros [ | fuel ]; cbn [while_loop];
      destruct (Z.ltb_spec (iteration (initial task j)) N); cbn in *; (lia || reflexivity). }
  rewrite Hloop. unfold deliver. cbn [iteration initial reponse_finale].
  destruct (Z.leb_spec N 0); [ | lia ]. cbn.
  eexists. repeat split. discriminate.
Qed.

Lemma run_agent_without_budget_witness :
  exists st, run_agent idle_service [] "mission" "modele" (-2) = Some (Returned sentinel st)
             /\ sent st = []
             /\ sentinel = "Agent arrêté : limite d'itérations atteinte."
             /\ sentinel <> "".
Proof.
  apply (run_agent_without_budget idle_service [] "mission" "modele" (-2)). lia.
Defined.

(** *** A termination signal that is neither [end_turn] nor [tool_use] *)

Lemma loop_body_unexpected (create : client) (model : string) (st : state)
  (resp : response) :
  create (List.length (sent st)) (request_of model st) = Return resp ->
  stop_reason resp <> "end_turn" ->
  stop_reason resp <> "tool_use" ->
  loop_body create model st
  = Break (State (messages st) (journal st) (iteration st + 1) (reponse_finale st)
             (sent st ++ [request_of model st])).
Proof.
  intros Hresp Hend Htool. unfold loop_body. fold (request_of model st).
  rewrite Hresp.
  apply String.eqb_neq in Hend, Htool. rewrite Hend, Htool. reflexivity.
Qed.

Lemma while_loop_unexpected (create : client) (model : string) (max_iterations : Z)
  (k : nat) :
  unexpected_after create k ->
  forall (n fuel : nat) (st : state),
    (List.length (sent st) + n = k)%nat ->
    iteration st + Z.of_nat n + 1 <= max_iterations ->
    (n < fuel)%nat ->
    exists st', while_loop fuel create model max_iterations st = Some (Exited st')
                /\ iteration st' = iteration st + Z.of_nat n + 1
                /\ List.length (sent st') = S k
                /\ reponse_finale st' = reponse_finale st.
Proof.
  intros [Htools Hstop].
  induction n as [ | n IH ]; intros fuel st Hk Hmax Hfuel;
    (destruct fuel as [ | fuel ]; [ lia | ]); cbn [while_loop];
    (destruct (Z.ltb_spec (iteration st) max_iterations); [ | lia ]).
  - destruct (Hstop (request_of model st)) as (resp & Hresp & Hend & Htool).
    replace k with (List.length (sent st)) in Hresp by lia.
    rewrite (loop_body_unexpected create model st resp Hresp Hend Htool).
    eexists. repeat split; cbn; try lia.
    rewrite length_app. cbn. lia.
  - destruct (Htools (List.length (sent st)) (request_of model st)) as [blocks Hresp];
      [ lia | ].
    destruct (loop_body_tool_use create model st blocks Hresp) as (st1 & Hbody & Hrep).
    pose proof (loop_body_counts create model st) as [Hit Hsent].
    rewrite Hbody in *. cbn [state_of] in Hit, Hsent.
    destruct (IH fuel st1) as (st' & Hloop & Hit' & Hsent' & Hrep').
    + rewrite Hsent, length_app. cbn. lia.
    + lia.
    + lia.
    + exists st'. repeat split; try assumption; try lia. congruence.
Qed.

(** An unexpected signal ends the loop in the pass that receives it, with
    no further request.  What [run_agent] then returns depends on the pass:
    the empty answer before the last permitted one, and the forced-stop
    sentinel in the last permitted one, where the check after the loop
    cannot tell this stop from an exhausted budget. *)
Lemma run_agent_unexpected_stop (create : client) (j : pydict) (task model : string)
  (N : Z) (k : nat) :
  unexpected_after create k ->
  Z.of_nat k + 1 <= N ->
  exists st, run_agent create j task model N
             = Some (Returned (if Z.of_nat k + 1 <? N then "" else sentinel) st)
             /\ List.length (sent st) = S k.
Proof.
  intros Hk HN. unfold run_agent.
  destruct (while_loop_unexpected create model N k Hk k (Z.to_nat N) (initial task j))
    as (st & Hloop & Hit & Hsent & Hrep); cbn; try lia.
  rewrite Hloop. unfold deliver. rewrite Hrep, Hit.
  cbn [initial iteration reponse_finale]. rewrite Z.add_0_l.
  destruct (Z.ltb_spec (Z.of_nat k + 1) N); destruct (Z.leb_spec N (Z.of_nat k + 1));
    try lia; cbn; eexists; (split; [ reflexivity | cbn; assumption ]).
Qed.

(** C2. An unexpected signal received in the last permitted iteration: with
    a budget of one iteration and a first response that stops on
    [max_tokens], one request is sent and [run_agent] returns the
    forced-stop sentinel, where the specification has the empty answer. *)
Theorem unexpected_stop_in_last_iteration :
  run_agent truncating_service [] "mission" "modele" 1
  = Some (Returned "Agent arrêté : limite d'itérations atteinte."
            (State [Message "user" (Text "mission")] [] 1
               "Agent arrêté : limite d'itérations atteinte."
               [request_of "modele" (initial "mission" [])])).
Proof. vm_compute. reflexivity. Qed.

(** The same signal one iteration earlier gives the empty answer. *)
Example unexpected_stop_before_last_iteration :
  run_agent truncating_service [] "mission" "modele" 2
  = Some (Returned ""
            (State [Message "user" (Text "mission")] [] 1 ""
               [request_of "modele" (initial "mission" [])])).
Proof. vm_compute. reflexivity. Qed.

(** *** Tool invocations and their results *)

Lemma run_tools_journal (blocks : list block) :
  forall j, snd (run_tools blocks j) = journal_after (invocations blocks) j.
Proof.
  induction blocks as [ | b r IH ]; intros j; cbn; [ reflexivity | ].
  destruct b as [ text | id name input | type ]; cbn; try apply IH.
  destruct (executer_outil name input j) as [s j1] eqn:He.
  specialize (IH j1). destruct (run_tools r j1) as [rs j2]. cbn in *.
  exact IH.
Qed.

Lemma run_tools_nth (blocks : list block) :
  forall j k inv,
    nth_error (invocations blocks) k = Some inv ->
    nth_error (fst (run_tools blocks j)) k
    = Some (result_of inv (journal_after (firstn k (invocations blocks)) j)).
Proof.
  induction blocks as [ | b r IH ]; intros j k inv Hk; cbn in *.
  - destruct k; discriminate.
  - destruct b as [ text | id name input | type ]; cbn in *; try (apply IH; assumption).
    destruct (executer_outil name input j) as [s j1] eqn:He.
    specialize (IH j1). destruct (run_tools r j1) as [rs j2]. cbn in *.
    destruct k as [ | k ]; cbn in *.
    + injection Hk as <-. unfold result_of. cbn. rewrite He. reflexivity.
    + rewrite He. cbn. apply IH. assumption.
Qed.

Lemma run_tools_ids (blocks : list block) :
  forall j, map tool_use_id (fst (run_tools blocks j)) = map inv_id (invocations blocks).
Proof.
  induction blocks as [ | b r IH ]; intros j; cbn; [ reflexivity | ].
  destruct b as [ text | id name input | type ]; cbn; try apply IH.
  destruct (executer_outil name input j) as [s j1].
  specialize (IH j1). destruct (run_tools r j1) as [rs j2]. cbn in *.
  f_equal. exact IH.
Qed.

(** C3. When the response asks for tools, the pass produces exactly one
    result for each invocation, with the invocation's id and in the order
    of the invocations, each tool run after the ones before it (on the
    journal they left), and appends the assistant turn and then the single
    turn that holds all the results to the transcript, which the next
    request carries. *)
Theorem tool_results_follow_invocations (create : client) (model : string)
  (st : state) (blocks : list block) :
  create (List.length (sent st)) (request_of model st)
  = Return (Response "tool_use" blocks) ->
  exists results, tool_pass create model st blocks results.
Proof.
  intros Hresp.
  exists (fst (run_tools blocks (journal st))).
  unfold tool_pass.
  assert (Hbody := loop_body_tools create model st blocks Hresp).
  rewrite run_tools_journal in Hbody.
  split; [ exact Hbody | ].
  split; [ rewrite <- (length_map tool_use_id), run_tools_ids; apply length_map | ].
  split; [ apply run_tools_ids | ].
  split; [ intros k inv Hk; apply run_tools_nth; exact Hk | ].
  match goal with |- sent (state_of (loop_body _ _ ?s)) = _ =>
    destruct (loop_body_counts create model s) as [_ Hsent]; rewrite Hsent end.
  cbn. rewrite <- app_assoc. reflexivity.
Qed.

Lemma tool_results_follow_invocations_witness :
  exists results,
    tool_pass writing_service "modele" (initial "mission" [])
      [TextBlock "Je note.";
       ToolUseBlock "toolu_01" "memo_chantier"
         [(KStr "cle", VStr "volume"); (KStr "valeur", VStr "3750")];
       ToolUseBlock "toolu_02" "memo_chantier"
         [(KStr "cle", VStr "volume"); (KStr "valeur", VStr "3750 m3")]]
      results.
Proof.
  apply (tool_results_follow_invocations writing_service "modele" (initial "mission" [])).
  reflexivity.
Defined.

(** ** The tool executor *)

Lemma run_tools_In (id name : string) (input : pydict) (blocks : list block) :
  forall j,
    In (ToolUseBlock id name input) blocks ->
    exists j', In (ToolResult id (fst (executer_outil name input j')))
                  (fst (run_tools blocks j)).
Proof.
  induction blocks as [ | b r IH ]; intros j Hin; [ destruct Hin | ].
  destruct Hin as [-> | Hin]; cbn.
  - destruct (executer_outil name input j) as [s j1] eqn:He.
    destruct (run_tools r j1) as [rs j2]. exists j. rewrite He. cbn. left. reflexivity.
  - destruct b as [ text | id0 name0 input0 | type ]; try (apply IH; assumption).
    destruct (executer_outil name0 input0 j) as [s j1].
    destruct (IH j1 Hin) as [j' Hj']. destruct (run_tools r j1) as [rs j2].
    exists j'. cbn in *. right. exact Hj'.
Qed.

Lemma registry_find_unknown (name : string) :
  name <> "calculer_volume" ->
  name <> "estimer_cout_reseau" ->
  name <> "memo_chantier" ->
  registry_find _TOOL_REGISTRY name = None.
Proof.
  intros H1 H2 H3. unfold _TOOL_REGISTRY. cbn [registry_find].
  apply not_eq_sym, String.eqb_neq in H1, H2, H3.
  rewrite H1, H2, H3. reflexivity.
Qed.

(** C5. A tool name that is none of the registered names, compared exactly
    and with case, is answered with a payload whose [erreur] entry names
    it; nothing is raised, the journal is untouched, and in the loop the
    payload is the result of that invocation like any other: the pass goes
    on to the next iteration. *)
Theorem unknown_tool_is_reported (tool_name : string) (tool_input : pydict) :
  tool_name <> "calculer_volume" ->
  tool_name <> "estimer_cout_reseau" ->
  tool_name <> "memo_chantier" ->
  (forall j,
      executer_outil tool_name tool_input j
      = (json_dumps true (obj [("erreur", VStr ("Outil inconnu : " ++ tool_name))]), j))
  /\ (forall create model st id blocks,
         create (List.length (sent st)) (request_of model st)
         = Return (Response "tool_use" blocks) ->
         In (ToolUseBlock id tool_name tool_input) blocks ->
         exists st' results,
           loop_body create model st = Continue st'
           /\ messages st'
              = (messages st ++ [Message "assistant" (Blocks blocks);
                                 Message "user" (ToolResults results)])%list
           /\ In (ToolResult id
                    (json_dumps true
                       (obj [("erreur", VStr ("Outil inconnu : " ++ tool_name))])))
                 results).
Proof.
  intros H1 H2 H3.
  assert (Hexec : forall j,
             executer_outil tool_name tool_input j
             = (json_dumps true (obj [("erreur", VStr ("Outil inconnu : " ++ tool_name))]), j)).
  { intros j. unfold executer_outil.
    rewrite (registry_find_unknown tool_name H1 H2 H3). reflexivity. }
  split; [ exact Hexec | ].
  intros create model st id blocks Hresp Hin.
  destruct (run_tools_In id tool_name tool_input blocks (journal st) Hin) as [j' Hj'].
  rewrite Hexec in Hj'. cbn [fst] in Hj'.
  eexists. exists (fst (run_tools blocks (journal st))).
  split; [ apply (loop_body_tools create model st blocks Hresp) | ].
  split; [ reflexivity | exact Hj' ].
Qed.

Lemma unknown_tool_is_reported_witness :
  (forall j,
      executer_outil "Memo_chantier" [(KStr "cle", VStr "note")] j
      = (json_dumps true (obj [("erreur", VStr ("Outil inconnu : " ++ "Memo_chantier"))]), j))
  /\ (forall create model st id blocks,
         create (List.length (sent st)) (request_of model st)
         = Return (Response "tool_use" blocks) ->
         In (ToolUseBlock id "Memo_chantier" [(KStr "cle", VStr "note")]) blocks ->
         exists st' results,
           loop_body create model st = Continue st'
           /\ messages st'
              = (messages st ++ [Message "assistant" (Blocks blocks);
                                 Message "user" (ToolResults results)])%list
           /\ In (ToolResult id
                    (json_dumps true
                       (obj [("erreur", VStr ("Outil inconnu : " ++ "Memo_chantier"))])))
                 results).
Proof.
  apply (unknown_tool_is_reported "Memo_chantier" [(KStr "cle", VStr "note")]);
    discriminate.
Defined.

(** ** Keys and dictionaries *)

Lemma spec_float_eqb_eq (x y : spec_float) : spec_float_eqb x y = true -> x = y.
Proof.
  destruct x as [ s | s | | s m e ], y as [ t | t | | t n f ]; cbn;
    try discriminate; try reflexivity; intros H.
  - apply Bool.eqb_prop in H. congruence.
  - apply Bool.eqb_prop in H. congruence.
  - apply andb_prop in H as [H He]. apply andb_prop in H as [Hs Hm].
    apply Bool.eqb_prop in Hs. apply Pos.eqb_eq in Hm. apply Z.eqb_eq in He.
    congruence.
Qed.

Lemma spec_float_eqb_refl (x : spec_float) : spec_float_eqb x x = true.
Proof.
  destruct x as [ s | s | | s m e ]; cbn;
    rewrite ?Bool.eqb_reflx, ?Pos.eqb_refl, ?Z.eqb_refl; reflexivity.
Qed.

Lemma key_class_eqb_eq (a b : key_class) : key_class_eqb a b = true -> a = b.
Proof.
  destruct a, b; cbn; try discriminate; try reflexivity; intros H.
  - apply String.eqb_eq in H. congruence.
  - apply Z.eqb_eq in H. congruence.
  - apply spec_float_eqb_eq in H. congruence.
Qed.

(** Equal keys are interchangeable in a comparison. *)
Lemma key_eqb_replace (a b c : pykey) :
  key_eqb a b = true -> key_eqb a c = key_eqb b c.
Proof.
  unfold key_eqb. intros H. apply key_class_eqb_eq in H. rewrite H. reflexivity.
Qed.

Lemma key_eqb_sym (a b : pykey) : key_eqb a b = key_eqb b a.
Proof.
  unfold key_eqb.
  destruct (key_class_of a) as [ | s | x | x | ], (key_class_of b) as [ | t | y | y | ];
    cbn; try reflexivity.
  - apply String.eqb_sym.
  - apply Z.eqb_sym.
  - destruct (spec_float_eqb x y) eqn:E.
    + apply spec_float_eqb_eq in E. subst. symmetry. apply spec_float_eqb_refl.
    + destruct (spec_float_eqb y x) eqn:E'; [ | reflexivity ].
      apply spec_float_eqb_eq in E'. subst. rewrite spec_float_eqb_refl in E.
      discriminate.
Qed.

Lemma key_eqb_str (s t : string) : key_eqb (KStr s) (KStr t) = String.eqb s t.
Proof. reflexivity. Qed.

Section Dict.
Context {V : Type}.
Implicit Types (d : list (pykey * V)) (k : pykey) (v : V).

Lemma dict_find_set_same d k v :
  key_eqb k k = true -> dict_find (dict_set d k v) k = Some v.
Proof.
  intros Hk. induction d as [ | [k' v'] r IH ]; cbn.
  - rewrite Hk. reflexivity.
  - destruct (key_eqb k' k) eqn:E; cbn; rewrite E; [ reflexivity | exact IH ].
Qed.

Lemma dict_find_set_other d k v k' :
  key_eqb k k' = false -> dict_find (dict_set d k v) k' = dict_find d k'.
Proof.
  intros Hk. induction d as [ | [k0 v0] r IH ]; cbn.
  - rewrite Hk. reflexivity.
  - destruct (key_eqb k0 k) eqn:E; cbn.
    + rewrite (key_eqb_replace k0 k k' E), Hk. reflexivity.
    + rewrite IH. reflexivity.
Qed.

Lemma other_items_set d k v :
  key_eqb k k = true -> other_items k (dict_set d k v) = other_items k d.
Proof.
  intros Hk. unfold other_items. induction d as [ | [k0 v0] r IH ]; cbn.
  - rewrite Hk. reflexivity.
  - destruct (key_eqb k0 k) eqn:E; cbn; rewrite E; cbn; [ reflexivity | ].
    rewrite IH. reflexivity.
Qed.

Lemma count_key_set_same d k v :
  key_eqb k k = true ->
  count_key k (dict_set d k v) = Nat.max 1 (count_key k d).
Proof.
  intros Hk. unfold count_key. induction d as [ | [k0 v0] r IH ]; cbn.
  - rewrite Hk. reflexivity.
  - destruct (key_eqb k0 k) eqn:E; cbn; rewrite E; cbn.
    + reflexivity.
    + exact IH.
Qed.

Lemma count_key_set_other d k v k' :
  key_eqb k k' = false -> count_key k' (dict_set d k v) = count_key k' d.
Proof.
  intros Hk. unfold count_key. induction d as [ | [k0 v0] r IH ]; cbn.
  - rewrite Hk. reflexivity.
  - destruct (key_eqb k0 k) eqn:E; cbn.
    + destruct (key_eqb k0 k'); reflexivity.
    + destruct (key_eqb k0 k'); cbn; rewrite IH; reflexivity.
Qed.

(** Writing keeps the keys unique. *)
Lemma dict_set_unique_keys d k v : unique_keys d -> unique_keys (dict_set d k v).
Proof.
  intros Hd k'. specialize (Hd k').
  destruct (key_eqb k k') eqn:E.
  - assert (Hcount : forall d', count_key k' d' = count_key k d').
    { intros d'. unfold count_key. f_equal. apply filter_ext. intros [k0 v0]. cbn.
      rewrite (key_eqb_sym k0 k'), (key_eqb_sym k0 k). symmetry.
      apply key_eqb_replace. exact E. }
    assert (Hk : key_eqb k k = true).
    { rewrite (key_eqb_replace k k' k E), key_eqb_sym. exact E. }
    rewrite Hcount, (count_key_set_same d k v Hk), <- Hcount. lia.
  - rewrite (count_key_set_other d k v k' E). exact Hd.
Qed.

End Dict.

(** ** The journal writer *)

Lemma memo_chantier_journal_write (cle valeur : pyval) (k : pykey) (j : pydict) :
  as_key cle = Return k ->
  key_eqb k k = true ->
  (count_key k j <= 1)%nat ->
  journal_write cle valeur k j (dict_set j k valeur).
Proof.
  intros Hcle Hk Hcount. unfold journal_write, memo_chantier. rewrite Hcle.
  split; [ reflexivity | ].
  split; [ apply dict_find_set_same; exact Hk | ].
  split; [ rewrite (count_key_set_same j k valeur Hk); lia | ].
  split; [ apply other_items_set; exact Hk | ].
  intros k' Hk'. apply dict_find_set_other. exact Hk'.
Qed.

(** C9. The journal writer sets the key to the value, leaves the items
    under every other key as they were, and returns the whole journal as it
    now is; a second write under the same key leaves one item under that
    key, holding the second value (and the other items still untouched).
    The journal is a [dict]: it holds at most one item under the key to
    begin with.  The key is what [cle] hashes to: for a [str], as the
    handler's signature has it, itself. *)
Theorem memo_chantier_sets_key (cle valeur valeur2 : pyval) (k : pykey) (j : pydict) :
  as_key cle = Return k ->
  key_eqb k k = true ->
  (count_key k j <= 1)%nat ->
  exists j' j'',
    journal_write cle valeur k j j'
    /\ journal_write cle valeur2 k j' j''
    /\ other_items k j'' = other_items k j.
Proof.
  intros Hcle Hk Hcount.
  exists (dict_set j k valeur), (dict_set (dict_set j k valeur) k valeur2).
  pose proof (memo_chantier_journal_write cle valeur k j Hcle Hk Hcount) as H1.
  assert (Hcount' : (count_key k (dict_set j k valeur) <= 1)%nat).
  { destruct H1 as (_ & _ & Hc & _). rewrite Hc. lia. }
  pose proof (memo_chantier_journal_write cle valeur2 k _ Hcle Hk Hcount') as H2.
  split; [ exact H1 | ]. split; [ exact H2 | ].
  rewrite !other_items_set by exact Hk. reflexivity.
Qed.

Lemma memo_chantier_sets_key_witness :
  exists j' j'',
    journal_write (VStr "volume") (VStr "3750") (KStr "volume")
      [(KStr "cout", VStr "85 732"); (KStr "volume", VStr "?")] j'
    /\ journal_write (VStr "volume") (VStr "3750 m3") (KStr "volume") j' j''
    /\ other_items (KStr "volume") j''
       = other_items (KStr "volume")
           [(KStr "cout", VStr "85 732"); (KStr "volume", VStr "?")].
Proof.
  apply (memo_chantier_sets_key (VStr "volume") (VStr "3750") (VStr "3750 m3")
           (KStr "volume") [(KStr "cout", VStr "85 732"); (KStr "volume", VStr "?")]).
  - reflexivity.
  - reflexivity.
  - cbn. lia.
Defined.

(** For a [str] key the first two conditions hold by themselves. *)
Lemma memo_chantier_str_key (cle : string) (valeur : pyval) (j : pydict) :
  (count_key (KStr cle) j <= 1)%nat ->
  journal_write (VStr cle) valeur (KStr cle) j (dict_set j (KStr cle) valeur).
Proof.
  intros Hcount. apply memo_chantier_journal_write; [ reflexivity | | exact Hcount ].
  rewrite key_eqb_str. apply String.eqb_refl.
Qed.

(** The journal starts empty, and the executor keeps its keys unique: the
    condition on the journal holds whenever the writer runs. *)
Lemma unique_keys_empty : unique_keys (@nil (pykey * pyval)).
Proof. intros k. cbn. lia. Qed.

Lemma memo_chantier_unique_keys (cle valeur : pyval) (j : pydict) :
  unique_keys j -> unique_keys (snd (memo_chantier cle valeur j)).
Proof.
  intros Hj. unfold memo_chantier.
  destruct (as_key cle) as [k | e]; cbn; [ | exact Hj ].
  apply dict_set_unique_keys. exact Hj.
Qed.

(** ** The volume-and-mass calculator *)

Lemma densite_de_unknown (materiau : string) :
  materiau <> "terre" -> materiau <> "beton" ->
  materiau <> "eau" -> materiau <> "gravier" ->
  densite_de materiau = 1.8%float.
Proof.
  intros H1 H2 H3 H4. unfold densite_de, _DENSITES. cbn [dict_find].
  rewrite !key_eqb_str.
  apply not_eq_sym, String.eqb_neq in H1, H2, H3, H4.
  rewrite H1, H2, H3, H4. reflexivity.
Qed.

Lemma py_mul_number (a b r : pyval) :
  py_mul a b = Return r -> is_number r -> is_number a /\ is_number b.
Proof.
  unfold is_number.
  destruct a, b; cbn; intros H Hr; try discriminate H;
    try (split; discriminate);
    repeat match type of H with
           | context [if ?c then _ else _] => destruct c
           end;
    try discriminate H; injection H as <-; exfalso; apply Hr; reflexivity.
Qed.

(** The calculator answers only when its three dimensions are numbers: its
    f-string formats numbers. *)
Lemma calculer_volume_formats_numbers (longueur_m largeur_m profondeur_m materiau r : pyval) :
  calculer_volume longueur_m largeur_m profondeur_m materiau = Return r ->
  is_number longueur_m /\ is_number largeur_m /\ is_number profondeur_m.
Proof.
  unfold calculer_volume. intros H.
  destruct (py_mul longueur_m largeur_m) as [surface | e] eqn:H1; [ | discriminate H ].
  cbn [bind] in H.
  destruct (py_mul surface profondeur_m) as [volume | e] eqn:H2; [ | discriminate H ].
  cbn [bind] in H.
  destruct (dict_get _DENSITES materiau 1.8%float) as [densite | e]; [ | discriminate H ].
  cbn [bind] in H.
  destruct (py_mul volume (VFloat densite)) as [masse | e] eqn:H3; [ | discriminate H ].
  assert (Hv : is_number volume).
  { unfold is_number. destruct volume; cbn in H3 |- *; try discriminate; discriminate H3. }
  destruct (py_mul_number _ _ _ H2 Hv) as [Hs Hp].
  destruct (py_mul_number _ _ _ H1 Hs) as [Hl Hw].
  auto.
Qed.

(** C6 fails as stated on a quarter-metre cube of earth: its volume is
    0.015625 and its mass 0.028125, and the calculator, which rounds both
    to two decimals, returns 0.02 and 0.03. *)
Lemma calculer_volume_rounds_counterexample :
  calculer_volume (VFloat 0.25) (VFloat 0.25) (VFloat 0.25) (VStr "terre")
  = Return (obj [("volume_m3", VFloat 0.02);
                 ("masse_t", VFloat 0.03);
                 ("materiau", VStr "terre");
                 ("dimensions", VStr "0.25m × 0.25m × 0.25m")])
  /\ volume_as_specified 0.25 0.25 0.25 "terre"
     = obj [("volume_m3", VFloat 0.015625);
            ("masse_t", VFloat 0.028125000000000001);
            ("materiau", VStr "terre");
            ("dimensions", VStr "0.25m × 0.25m × 0.25m")]
  /\ (0.02 =? 0.015625)%float = false
  /\ calculer_volume (VFloat 0.25) (VFloat 0.25) (VFloat 0.25) (VStr "terre")
     <> Return (volume_as_specified 0.25 0.25 0.25 "terre").
Proof.
  assert (Hcode :
    calculer_volume (VFloat 0.25) (VFloat 0.25) (VFloat 0.25) (VStr "terre")
    = Return (obj [("volume_m3", VFloat 0.02);
                   ("masse_t", VFloat 0.03);
                   ("materiau", VStr "terre");
                   ("dimensions", VStr "0.25m × 0.25m × 0.25m")]))
    by (vm_compute; reflexivity).
  assert (Hspec :
    volume_as_specified 0.25 0.25 0.25 "terre"
    = obj [("volume_m3", VFloat 0.015625);
           ("masse_t", VFloat 0.028125000000000001);
           ("materiau", VStr "terre");
           ("dimensions", VStr "0.25m × 0.25m × 0.25m")])
    by (vm_compute; reflexivity).
  split; [ exact Hcode | ]. split; [ exact Hspec | ]. split.
  - vm_compute. reflexivity.
  - rewrite Hcode, Hspec. intros H.
    apply (f_equal (fun o => match o with
                             | Return v =>
                                 match field "volume_m3" v with
                                 | Some (VFloat volume) => (volume =? 0.02)%float
                                 | _ => false
                                 end
                             | Raise _ => false
                             end)) in H.
    vm_compute in H. discriminate H.
Qed.

(** C6, amended: the calculator returns the volume and the mass rounded to
    two decimals, the mass being computed from the unrounded volume and the
    density of the material (the table's, or 1.8 for a material the table
    does not have, without failing).  This holds whatever the types of the
    three dimensions, whenever their product and the mass can be computed.
    For [float] dimensions it always answers; for [int] dimensions the
    volume is the exact product (which rounding leaves as it is) and it
    answers when that product converts to a [float].  On (10, 4, 2, beton)
    it returns 80 and 192.0, and on (10, 4, 2, unknown) a mass of 144.0. *)
Theorem calculer_volume_rounded (materiau : string) :
  (forall l w d surface volume masse : pyval,
      py_mul l w = Return surface ->
      py_mul surface d = Return volume ->
      py_mul volume (VFloat (densite_de materiau)) = Return masse ->
      exists volume_arrondi masse_arrondie,
        py_round2 volume = Return volume_arrondi
        /\ py_round2 masse = Return masse_arrondie
        /\ calculer_volume l w d (VStr materiau)
           = Return (volume_answer volume_arrondi masse_arrondie l w d materiau))
  /\ (forall l w d : float,
      calculer_volume (VFloat l) (VFloat w) (VFloat d) (VStr materiau)
      = Return (volume_answer
                  (VFloat (float_round2 (l * w * d)))
                  (VFloat (float_round2 (l * w * d * densite_de materiau)))
                  (VFloat l) (VFloat w) (VFloat d) materiau))
  /\ (forall (l w d : Z) (volume : float),
         float_of_int (l * w * d) = Return volume ->
         calculer_volume (VInt l) (VInt w) (VInt d) (VStr materiau)
         = Return (volume_answer
                     (VInt (l * w * d))
                     (VFloat (float_round2 (volume * densite_de materiau)))
                     (VInt l) (VInt w) (VInt d) materiau))
  /\ (densite_de "terre" = 1.8 /\ densite_de "beton" = 2.4
      /\ densite_de "eau" = 1.0 /\ densite_de "gravier" = 1.6)%float
  /\ (materiau <> "terre" -> materiau <> "beton" ->
      materiau <> "eau" -> materiau <> "gravier" ->
      densite_de materiau = 1.8%float)
  /\ calculer_volume (VInt 10) (VInt 4) (VInt 2) (VStr "beton")
     = Return (obj [("volume_m3", VInt 80); ("masse_t", VFloat 192.0);
                    ("materiau", VStr "beton");
                    ("dimensions", VStr "10m × 4m × 2m")])
  /\ calculer_volume (VInt 10) (VInt 4) (VInt 2) (VStr "unknown")
     = Return (obj [("volume_m3", VInt 80); ("masse_t", VFloat 144.0);
                    ("materiau", VStr "unknown");
                    ("dimensions", VStr "10m × 4m × 2m")]).
Proof.
  split; [ | split; [ | split; [ | split; [ | split; [ | split ] ] ] ] ].
  - intros l w d surface volume masse Hs Hv Hm.
    assert (Hnum : exists x y, py_round2 volume = Return x /\ py_round2 masse = Return y).
    { destruct volume; cbn in Hm; try discriminate Hm;
        try (destruct (float_of_int _); cbn in Hm; try discriminate Hm);
        injection Hm as <-; cbn; eexists; eexists; split; reflexivity. }
    destruct Hnum as (x & y & Hx & Hy). exists x, y.
    split; [ exact Hx | ]. split; [ exact Hy | ].
    unfold calculer_volume. rewrite Hs. cbn [bind]. rewrite Hv. cbn [bind].
    change (dict_get _DENSITES (VStr materiau) 1.8%float)
      with (Return (A := float) (densite_de materiau)).
    cbn [bind]. rewrite Hm. cbn [bind]. rewrite Hx. cbn [bind]. rewrite Hy. reflexivity.
  - intros l w d. reflexivity.
  - intros l w d volume Hvolume. unfold calculer_volume.
    cbn [py_mul as_number bind]. fold (densite_de materiau).
    change (dict_get _DENSITES (VStr materiau) 1.8%float)
      with (Return (A := float) (densite_de materiau)).
    cbn [bind py_mul as_number to_float]. rewrite Hvolume. reflexivity.
  - repeat split; vm_compute; reflexivity.
  - apply densite_de_unknown.
  - vm_compute. reflexivity.
  - vm_compute. reflexivity.
Qed.

(** ** The network-cost estimator *)

Lemma estimer_cout_reseau_known (type_reseau : string) (fourchette : Z * Z)
  (longueur_m diametre_mm : pyval) :
  dict_find _COUTS_RESEAU (KStr type_reseau) = Some fourchette ->
  estimer_cout_reseau (VStr type_reseau) longueur_m diametre_mm
  = estimation fourchette (VStr type_reseau) longueur_m diametre_mm.
Proof.
  intros Hfind. unfold estimer_cout_reseau, estimation, dict_get.
  cbn [as_key bind]. rewrite Hfind. reflexivity.
Qed.

Lemma estimer_cout_reseau_unknown (type_reseau : string) (longueur_m diametre_mm : pyval) :
  dict_find _COUTS_RESEAU (KStr type_reseau) = None ->
  estimer_cout_reseau (VStr type_reseau) longueur_m diametre_mm
  = estimation (200, 500) (VStr type_reseau) longueur_m diametre_mm.
Proof.
  intros Hfind. unfold estimer_cout_reseau, estimation, dict_get.
  cbn [as_key bind]. rewrite Hfind. reflexivity.
Qed.

Lemma py_truediv_float_200 (d : float) :
  py_truediv (VFloat d) (VInt 200) = Return (d / 200)%float.
Proof. reflexivity. Qed.

(** The estimate for a [float] length and diameter: each bound is the unit
    cost times the length times the square root of (diameter / 200),
    rounded to the nearest integer and written with its thousands apart. *)
Lemma estimation_floats (fourchette : Z * Z) (unit_min unit_max : float)
  (type_reseau : pyval) (l d : float) (cout_min cout_max : Z) :
  float_of_int (fst fourchette) = Return unit_min ->
  float_of_int (snd fourchette) = Return unit_max ->
  (d / 200 <? 0)%float = false ->
  float_round (unit_min * l * PrimFloat.sqrt (d / 200)) = Return cout_min ->
  float_round (unit_max * l * PrimFloat.sqrt (d / 200)) = Return cout_max ->
  estimation fourchette type_reseau (VFloat l) (VFloat d)
  = Return (cost_answer type_reseau (VFloat l) (VFloat d) cout_min cout_max).
Proof.
  intros Hmin Hmax Hd Hcmin Hcmax. unfold estimation.
  rewrite py_truediv_float_200. cbn [bind]. unfold math_sqrt. rewrite Hd.
  cbn [bind py_mul as_number to_float]. rewrite Hmin, Hmax.
  cbn [bind py_mul py_round as_number to_float]. rewrite Hcmin. cbn [bind].
  rewrite Hcmax. reflexivity.
Qed.

(** The same for an [int] length and diameter: the unit cost times the
    length is an exact [int], converted before it is scaled. *)
Lemma estimation_ints (fourchette : Z * Z) (lineaire_min lineaire_max rapport : float)
  (type_reseau : pyval) (l d : Z) (cout_min cout_max : Z) :
  int_true_divide d 200 = Return rapport ->
  (rapport <? 0)%float = false ->
  float_of_int (fst fourchette * l) = Return lineaire_min ->
  float_of_int (snd fourchette * l) = Return lineaire_max ->
  float_round (lineaire_min * PrimFloat.sqrt rapport) = Return cout_min ->
  float_round (lineaire_max * PrimFloat.sqrt rapport) = Return cout_max ->
  estimation fourchette type_reseau (VInt l) (VInt d)
  = Return (cost_answer type_reseau (VInt l) (VInt d) cout_min cout_max).
Proof.
  intros Hr Hpos Hmin Hmax Hcmin Hcmax. unfold estimation.
  cbn [py_truediv as_number]. change (200 =? 0) with false. cbn iota.
  rewrite Hr. cbn [bind]. unfold math_sqrt. rewrite Hpos.
  cbn [bind py_mul as_number to_float]. rewrite Hmin, Hmax.
  cbn [bind py_mul py_round as_number to_float]. rewrite Hcmin. cbn [bind].
  rewrite Hcmax. reflexivity.
Qed.

(** The diameter is 200 when the input mapping has none. *)
Lemma estimer_cout_reseau_default_diameter (type_reseau longueur_m : pyval) (j : pydict) :
  call estimer_cout_reseau_fn
    [(KStr "type_reseau", type_reseau); (KStr "longueur_m", longueur_m)] j
  = (estimer_cout_reseau type_reseau longueur_m (VInt 200), j).
Proof. reflexivity. Qed.

(** C7 fails as stated on one metre of drinking-water pipe of diameter 100:
    the range as specified is [106.066..., 247.487...], and the estimator,
    which rounds each bound to the nearest integer and returns it as text,
    answers 106 €HT and 247 €HT. *)
Lemma estimer_cout_reseau_rounds_counterexample :
  estimer_cout_reseau (VStr "eau_potable") (VInt 1) (VInt 100)
  = Return (obj [("type_reseau", VStr "eau_potable");
                 ("longueur_m", VInt 1);
                 ("diametre_mm", VInt 100);
                 ("cout_min_ht", VStr "106 €HT");
                 ("cout_max_ht", VStr "247 €HT");
                 ("note", VStr "Fourniture et pose, hors VRD et déviations")])
  /\ cost_range_as_specified 150 350 1 100
     = (106.06601717798213, 247.48737341529164)%float
  /\ (106 =? 106.06601717798213)%float = false
  /\ (247 =? 247.48737341529164)%float = false
  /\ estimer_cout_reseau (VStr "eau_potable") (VInt 1) (VInt 100)
     <> Return (cost_answer_as_specified (VStr "eau_potable") (VInt 1) (VInt 100)
                  (cost_range_as_specified 150 350 1 100)).
Proof.
  assert (Hcode :
    estimer_cout_reseau (VStr "eau_potable") (VInt 1) (VInt 100)
    = Return (obj [("type_reseau", VStr "eau_potable");
                   ("longueur_m", VInt 1);
                   ("diametre_mm", VInt 100);
                   ("cout_min_ht", VStr "106 €HT");
                   ("cout_max_ht", VStr "247 €HT");
                   ("note", VStr "Fourniture et pose, hors VRD et déviations")]))
    by (vm_compute; reflexivity).
  split; [ exact Hcode | ].
  split; [ vm_compute; reflexivity | ].
  split; [ vm_compute; reflexivity | ].
  split; [ vm_compute; reflexivity | ].
  rewrite Hcode. intros H.
  apply (f_equal (fun o => match o with
                           | Return v =>
                               match field "cout_min_ht" v with
                               | Some (VStr _) => true
                               | _ => false
                               end
                           | Raise _ => false
                           end)) in H.
  vm_compute in H. discriminate H.
Qed.

(** C7, amended: for a recognized kind, whose unit costs the table gives,
    the estimator returns the two bounds
    round(unit cost × length × sqrt(diameter / 200)), rounded to the nearest
    integer (ties to even) and written as text, thousands apart and
    followed by the currency; it does so when the diameter is not negative
    and the scaled bounds are finite.  The diameter is 200 when omitted.
    On (eau_potable, 100, 200) the bounds are 15 000 and 35 000. *)
Theorem estimer_cout_reseau_rounded (type_reseau : string) (fourchette : Z * Z)
  (unit_min unit_max : float) :
  dict_find _COUTS_RESEAU (KStr type_reseau) = Some fourchette ->
  float_of_int (fst fourchette) = Return unit_min ->
  float_of_int (snd fourchette) = Return unit_max ->
  (forall longueur_m diametre_mm : pyval,
      estimer_cout_reseau (VStr type_reseau) longueur_m diametre_mm
      = estimation fourchette (VStr type_reseau) longueur_m diametre_mm)
  /\ (forall (l d : float) (cout_min cout_max : Z),
      (d / 200 <? 0)%float = false ->
      float_round (unit_min * l * PrimFloat.sqrt (d / 200)) = Return cout_min ->
      float_round (unit_max * l * PrimFloat.sqrt (d / 200)) = Return cout_max ->
      estimer_cout_reseau (VStr type_reseau) (VFloat l) (VFloat d)
      = Return (cost_answer (VStr type_reseau) (VFloat l) (VFloat d) cout_min cout_max))
  /\ (forall (l d : Z) (lineaire_min lineaire_max rapport : float) (cout_min cout_max : Z),
         int_true_divide d 200 = Return rapport ->
         (rapport <? 0)%float = false ->
         float_of_int (fst fourchette * l) = Return lineaire_min ->
         float_of_int (snd fourchette * l) = Return lineaire_max ->
         float_round (lineaire_min * PrimFloat.sqrt rapport) = Return cout_min ->
         float_round (lineaire_max * PrimFloat.sqrt rapport) = Return cout_max ->
         estimer_cout_reseau (VStr type_reseau) (VInt l) (VInt d)
         = Return (cost_answer (VStr type_reseau) (VInt l) (VInt d) cout_min cout_max))
  /\ (forall (longueur_m : pyval) (j : pydict),
         call estimer_cout_reseau_fn
           [(KStr "type_reseau", VStr type_reseau); (KStr "longueur_m", longueur_m)] j
         = (estimer_cout_reseau (VStr type_reseau) longueur_m (VInt 200), j))
  /\ (dict_find _COUTS_RESEAU (KStr "eau_potable") = Some (150, 350)
      /\ dict_find _COUTS_RESEAU (KStr "assainissement") = Some (200, 500)
      /\ dict_find _COUTS_RESEAU (KStr "pluvial") = Some (180, 420)
      /\ dict_find _COUTS_RESEAU (KStr "telecom") = Some (80, 180))
  /\ estimer_cout_reseau (VStr "eau_potable") (VInt 100) (VInt 200)
     = Return (obj [("type_reseau", VStr "eau_potable");
                    ("longueur_m", VInt 100);
                    ("diametre_mm", VInt 200);
                    ("cout_min_ht", VStr "15 000 €HT");
                    ("cout_max_ht", VStr "35 000 €HT");
                    ("note", VStr "Fourniture et pose, hors VRD et déviations")]).
Proof.
  intros Hfind Hmin Hmax.
  split; [ | split; [ | split; [ | split; [ | split ] ] ] ].
  - intros longueur_m diametre_mm. apply estimer_cout_reseau_known. exact Hfind.
  - intros l d cout_min cout_max Hd Hcmin Hcmax.
    rewrite (estimer_cout_reseau_known type_reseau fourchette _ _ Hfind).
    apply (estimation_floats fourchette unit_min unit_max); assumption.
  - intros l d lineaire_min lineaire_max rapport cout_min cout_max Hr Hpos Hlmin Hlmax
      Hcmin Hcmax.
    rewrite (estimer_cout_reseau_known type_reseau fourchette _ _ Hfind).
    apply (estimation_ints fourchette lineaire_min lineaire_max rapport); assumption.
  - intros longueur_m j. apply estimer_cout_reseau_default_diameter.
  - split; [ | split; [ | split ] ]; vm_compute; reflexivity.
  - vm_compute. reflexivity.
Qed.

Lemma estimer_cout_reseau_rounded_witness :
  (forall longueur_m diametre_mm : pyval,
      estimer_cout_reseau (VStr "eau_potable") longueur_m diametre_mm
      = estimation (150, 350) (VStr "eau_potable") longueur_m diametre_mm)
  /\ (forall (l d : float) (cout_min cout_max : Z),
      (d / 200 <? 0)%float = false ->
      float_round (150 * l * PrimFloat.sqrt (d / 200)) = Return cout_min ->
      float_round (350 * l * PrimFloat.sqrt (d / 200)) = Return cout_max ->
      estimer_cout_reseau (VStr "eau_potable") (VFloat l) (VFloat d)
      = Return (cost_answer (VStr "eau_potable") (VFloat l) (VFloat d) cout_min cout_max))
  /\ (forall (l d : Z) (lineaire_min lineaire_max rapport : float) (cout_min cout_max : Z),
         int_true_divide d 200 = Return rapport ->
         (rapport <? 0)%float = false ->
         float_of_int (fst (150, 350) * l) = Return lineaire_min ->
         float_of_int (snd (150, 350) * l) = Return lineaire_max ->
         float_round (lineaire_min * PrimFloat.sqrt rapport) = Return cout_min ->
         float_round (lineaire_max * PrimFloat.sqrt rapport) = Return cout_max ->
         estimer_cout_reseau (VStr "eau_potable") (VInt l) (VInt d)
         = Return (cost_answer (VStr "eau_potable") (VInt l) (VInt d) cout_min cout_max))
  /\ (forall (longueur_m : pyval) (j : pydict),
         call estimer_cout_reseau_fn
           [(KStr "type_reseau", VStr "eau_potable"); (KStr "longueur_m", longueur_m)] j
         = (estimer_cout_reseau (VStr "eau_potable") longueur_m (VInt 200), j))
  /\ (dict_find _COUTS_RESEAU (KStr "eau_potable") = Some (150, 350)
      /\ dict_find _COUTS_RESEAU (KStr "assainissement") = Some (200, 500)
      /\ dict_find _COUTS_RESEAU (KStr "pluvial") = Some (180, 420)
      /\ dict_find _COUTS_RESEAU (KStr "telecom") = Some (80, 180))
  /\ estimer_cout_reseau (VStr "eau_potable") (VInt 100) (VInt 200)
     = Return (obj [("type_reseau", VStr "eau_potable");
                    ("longueur_m", VInt 100);
                    ("diametre_mm", VInt 200);
                    ("cout_min_ht", VStr "15 000 €HT");
                    ("cout_max_ht", VStr "35 000 €HT");
                    ("note", VStr "Fourniture et pose, hors VRD et déviations")]).
Proof.
  apply (estimer_cout_reseau_rounded "eau_potable" (150, 350) 150%float 350%float).
  - reflexivity.
  - vm_compute. reflexivity.
  - vm_compute. reflexivity.
Defined.

(** C8. A kind the table does not have is not an error: the estimator
    takes the unit costs 200 and 500 per metre, and estimates from them as
    it does from the unit costs of a recognized kind (scaled by the length
    and by the square root of (diameter / 200), rounded, written as
    text). *)
Theorem estimer_cout_reseau_default_range (type_reseau : string) :
  type_reseau <> "eau_potable" ->
  type_reseau <> "assainissement" ->
  type_reseau <> "pluvial" ->
  type_reseau <> "telecom" ->
  dict_get _COUTS_RESEAU (VStr type_reseau) (200, 500) = Return (200, 500)
  /\ (forall longueur_m diametre_mm : pyval,
         estimer_cout_reseau (VStr type_reseau) longueur_m diametre_mm
         = estimation (200, 500) (VStr type_reseau) longueur_m diametre_mm)
  /\ (forall (l d : float) (cout_min cout_max : Z),
         (d / 200 <? 0)%float = false ->
         float_round (200 * l * PrimFloat.sqrt (d / 200)) = Return cout_min ->
         float_round (500 * l * PrimFloat.sqrt (d / 200)) = Return cout_max ->
         estimer_cout_reseau (VStr type_reseau) (VFloat l) (VFloat d)
         = Return (cost_answer (VStr type_reseau) (VFloat l) (VFloat d) cout_min cout_max)).
Proof.
  intros H1 H2 H3 H4.
  assert (Hfind : dict_find _COUTS_RESEAU (KStr type_reseau) = None).
  { unfold _COUTS_RESEAU. cbn [dict_find]. rewrite !key_eqb_str.
    apply not_eq_sym, String.eqb_neq in H1, H2, H3, H4.
    rewrite H1, H2, H3, H4. reflexivity. }
  split; [ | split ].
  - unfold dict_get. cbn [as_key bind]. rewrite Hfind. reflexivity.
  - intros longueur_m diametre_mm. apply estimer_cout_reseau_unknown. exact Hfind.
  - intros l d cout_min cout_max Hd Hcmin Hcmax.
    rewrite (estimer_cout_reseau_unknown type_reseau _ _ Hfind).
    apply (estimation_floats (200, 500) 200%float 500%float);
      try assumption; vm_compute; reflexivity.
Qed.

Lemma estimer_cout_reseau_default_range_witness :
  dict_get _COUTS_RESEAU (VStr "gaz") (200, 500) = Return (200, 500)
  /\ (forall longueur_m diametre_mm : pyval,
         estimer_cout_reseau (VStr "gaz") longueur_m diametre_mm
         = estimation (200, 500) (VStr "gaz") longueur_m diametre_mm)
  /\ (forall (l d : float) (cout_min cout_max : Z),
         (d / 200 <? 0)%float = false ->
         float_round (200 * l * PrimFloat.sqrt (d / 200)) = Return cout_min ->
         float_round (500 * l * PrimFloat.sqrt (d / 200)) = Return cout_max ->
         estimer_cout_reseau (VStr "gaz") (VFloat l) (VFloat d)
         = Return (cost_answer (VStr "gaz") (VFloat l) (VFloat d) cout_min cout_max)).
Proof.
  apply (estimer_cout_reseau_default_range "gaz"); discriminate.
Defined.

(** The default range at work: 12.5 m of a kind the table does not have,
    diameter 250, and 350 m of it at diameter 300. *)
Example estimer_cout_reseau_gaz :
  estimer_cout_reseau (VStr "gaz") (VFloat 12.5) (VFloat 250)
  = Return (cost_answer (VStr "gaz") (VFloat 12.5) (VFloat 250) 2795 6988)
  /\ estimer_cout_reseau (VStr "gaz") (VInt 350) (VInt 300)
     = Return (cost_answer (VStr "gaz") (VInt 350) (VInt 300) 85732 214330)
  /\ format_cout 85732 = "85 732 €HT".
Proof. repeat split; vm_compute; reflexivity. Qed.

(** ** The executor's boundary *)

Lemma bind_arguments_missing (fn : handler) (kwargs : pydict) (p : string) :
  In (p, None) (fn_params fn) ->
  dict_find kwargs (KStr p) = None ->
  exists e, bind_arguments fn kwargs = Raise e.
Proof.
  intros Hp Hfind. unfold bind_arguments.
  destruct (negb _); [ eexists; reflexivity | ].
  destruct (filter _ (map key_name _)); [ | eexists; reflexivity ].
  destruct (map fst (filter _ (fn_params fn))) as [ | q missing ] eqn:E;
    [ | eexists; reflexivity ].
  exfalso.
  assert (Hin : In p (map fst (filter (fun p0 => match bound_value kwargs p0 with
                                                 | None => true
                                                 | Some _ => false
                                                 end) (fn_params fn)))).
  { apply (in_map fst _ (p, None)). apply filter_In. split; [ exact Hp | ].
    unfold bound_value. cbn [fst snd]. rewrite Hfind. reflexivity. }
  rewrite E in Hin. destruct Hin.
Qed.

Lemma bind_arguments_unexpected (fn : handler) (kwargs : pydict) (k : string) (v : pyval) :
  In (KStr k, v) kwargs ->
  is_param (fn_params fn) k = false ->
  exists e, bind_arguments fn kwargs = Raise e.
Proof.
  intros Hin Hk. unfold bind_arguments.
  destruct (negb _); [ eexists; reflexivity | ].
  destruct (filter _ (map key_name _)) as [ | q r ] eqn:E; [ | eexists; reflexivity ].
  exfalso.
  assert (Hk' : In k (filter (fun k0 => negb (is_param (fn_params fn) k0))
                        (map key_name (map fst kwargs)))).
  { apply filter_In. split; [ | rewrite Hk; reflexivity ].
    apply (in_map key_name _ (KStr k)). apply (in_map fst _ (KStr k, v)). exact Hin. }
  rewrite E in Hk'. destruct Hk'.
Qed.

Lemma py_truediv_number (a b : pyval) (r : float) :
  py_truediv a b = Return r -> is_number a /\ is_number b.
Proof.
  unfold is_number.
  destruct a, b; cbn; intros H; try discriminate H; split; discriminate.
Qed.

(** The estimator answers only when the length and the diameter are
    numbers. *)
Lemma estimer_cout_reseau_takes_numbers (type_reseau longueur_m diametre_mm r : pyval) :
  estimer_cout_reseau type_reseau longueur_m diametre_mm = Return r ->
  is_number longueur_m /\ is_number diametre_mm.
Proof.
  unfold estimer_cout_reseau. intros H.
  destruct (dict_get _COUTS_RESEAU type_reseau (200, 500)) as [f | e]; [ | discriminate H ].
  cbn [bind] in H.
  destruct (py_truediv diametre_mm (VInt 200)) as [rapport | e] eqn:Hd; [ | discriminate H ].
  cbn [bind] in H.
  destruct (math_sqrt rapport) as [coeff | e]; [ | discriminate H ].
  cbn [bind] in H.
  destruct (py_mul (VInt (fst f)) longueur_m) as [x | e] eqn:H1; [ | discriminate H ].
  cbn [bind] in H.
  destruct (py_mul x (VFloat coeff)) as [y | e] eqn:H2; [ | discriminate H ].
  assert (Hx : is_number x).
  { unfold is_number. destruct x; cbn in H2 |- *; try discriminate; discriminate H2. }
  destruct (py_mul_number _ _ _ H1 Hx) as [_ Hl].
  destruct (py_truediv_number _ _ _ Hd) as [Hdn _].
  auto.
Qed.

(** C4 fails as stated on a wrongly-typed parameter the handler has no
    operation to fail on: the journal writer's [valeur] is declared a
    string; given the number 42 it stores it, and the executor returns the
    handler's answer, which is not the error payload, whatever error one
    looks for.  So it does on a boolean where a number is declared: the
    calculator's [longueur_m] given [true] is computed with as 1, and the
    executor returns the handler's answer. *)
Lemma wrongly_typed_parameter_counterexample :
  declared_type "memo_chantier" "valeur" = Some (VStr "string")
  /\ json_type (VInt 42) = "number"
  /\ executer_outil "memo_chantier"
       [(KStr "cle", VStr "note"); (KStr "valeur", VInt 42)] []
     = (json_dumps false
          (obj [("status", VStr "mémorisé"); ("cle", VStr "note");
                ("journal", VDict [(KStr "note", VInt 42)])]),
        [(KStr "note", VInt 42)])
  /\ (forall e,
         fst (executer_outil "memo_chantier"
                [(KStr "cle", VStr "note"); (KStr "valeur", VInt 42)] [])
         <> json_dumps true
              (error_payload e "memo_chantier"
                 [(KStr "cle", VStr "note"); (KStr "valeur", VInt 42)]))
  /\ declared_type "calculer_volume" "longueur_m" = Some (VStr "number")
  /\ json_type (VBool true) = "boolean"
  /\ executer_outil "calculer_volume"
       [(KStr "longueur_m", VBool true); (KStr "largeur_m", VInt 4);
        (KStr "profondeur_m", VInt 2)] []
     = (json_dumps false
          (obj [("volume_m3", VInt 8); ("masse_t", VFloat 14.4);
                ("materiau", VStr "terre");
                ("dimensions", VStr "Truem × 4m × 2m")]),
        [])
  /\ (forall e,
         fst (executer_outil "calculer_volume"
                [(KStr "longueur_m", VBool true); (KStr "largeur_m", VInt 4);
                 (KStr "profondeur_m", VInt 2)] [])
         <> json_dumps true
              (error_payload e "calculer_volume"
                 [(KStr "longueur_m", VBool true); (KStr "largeur_m", VInt 4);
                  (KStr "profondeur_m", VInt 2)])).
Proof.
  split; [ vm_compute; reflexivity | ].
  split; [ reflexivity | ].
  split; [ vm_compute; reflexivity | ].
  split.
  { intros e H.
    apply (f_equal (String.get 2)) in H.
    vm_compute in H. discriminate H. }
  split; [ vm_compute; reflexivity | ].
  split; [ reflexivity | ].
  split; [ vm_compute; reflexivity | ].
  intros e H.
  apply (f_equal (String.get 2)) in H.
  vm_compute in H. discriminate H.
Qed.

Lemma all_bound_some (l : list (option pyval)) :
  filter (fun o => match o with None => true | Some _ => false end) l = [] ->
  map Some (all_bound l) = l.
Proof.
  induction l as [ | [v | ] r IH ]; cbn; intros H.
  - reflexivity.
  - rewrite IH by exact H. reflexivity.
  - discriminate H.
Qed.

(** The arguments a call binds are the values bound to the parameters, in
    the order of the parameters. *)
Lemma bind_arguments_bound (fn : handler) (kwargs : pydict) (args : list pyval) :
  bind_arguments fn kwargs = Return args ->
  map Some args = map (bound_value kwargs) (fn_params fn).
Proof.
  unfold bind_arguments.
  destruct (negb _); [ discriminate | ].
  destruct (filter _ (map key_name _)); [ | discriminate ].
  destruct (map fst (filter _ (fn_params fn))) as [ | q missing ] eqn:E; [ | discriminate ].
  intros H. injection H as <-. apply all_bound_some.
  apply map_eq_nil in E. induction (fn_params fn) as [ | p r IH ]; cbn in *.
  - reflexivity.
  - destruct (bound_value kwargs p); [ apply IH; exact E | discriminate E ].
Qed.

Lemma bind_arguments_length (fn : handler) (kwargs : pydict) (args : list pyval) :
  bind_arguments fn kwargs = Return args ->
  List.length args = List.length (fn_params fn).
Proof.
  intros H. apply bind_arguments_bound in H.
  rewrite <- (length_map Some args), H. apply length_map.
Qed.

Lemma number_parameters_declared :
  forall tool param,
    In (tool, param) number_parameters ->
    declared_type tool param = Some (VStr "number").
Proof.
  intros tool param Hin. cbn in Hin.
  repeat (destruct Hin as [Heq | Hin]; [ injection Heq as <- <-; vm_compute; reflexivity | ]).
  destruct Hin.
Qed.

(** A value that is not a number, bound to a parameter that is to be one,
    makes the handler raise. *)
Lemma call_rejects_non_number (tool param : string) (fn : handler) (kwargs j : pydict)
  (v : pyval) :
  In (tool, param) number_parameters ->
  registry_find _TOOL_REGISTRY tool = Some fn ->
  dict_find kwargs (KStr param) = Some v ->
  ~ is_number v ->
  exists e, call fn kwargs j = (Raise e, j).
Proof.
  intros Hin Hfn Hfind Hv. unfold call.
  destruct (bind_arguments fn kwargs) as [args | e] eqn:Hbind; [ | eexists; reflexivity ].
  apply bind_arguments_bound in Hbind.
  cbn in Hin.
  repeat (destruct Hin as [Heq | Hin];
          [ injection Heq as <- <-; cbn in Hfn; injection Hfn as <-;
            cbn [fn_params map calculer_volume_fn estimer_cout_reseau_fn] in Hbind;
            unfold bound_value in Hbind; cbn [fst snd] in Hbind;
            rewrite ?Hfind in Hbind;
            repeat (destruct args as [ | ? args ]; try discriminate Hbind);
            cbn [map] in Hbind;
            cbn [fn_body calculer_volume_fn estimer_cout_reseau_fn]
          | ]);
    try (destruct Hin).
  all: match goal with
       | |- exists e, (calculer_volume ?l ?w ?d ?m, _) = _ =>
           destruct (calculer_volume l w d m) as [r | e] eqn:Hr; [ | eexists; reflexivity ];
           destruct (calculer_volume_formats_numbers _ _ _ _ _ Hr) as (Hl & Hw & Hd)
       | |- exists e, (estimer_cout_reseau ?t ?l ?d, _) = _ =>
           destruct (estimer_cout_reseau t l d) as [r | e] eqn:Hr; [ | eexists; reflexivity ];
           destruct (estimer_cout_reseau_takes_numbers _ _ _ _ Hr) as (Hl & Hd)
       end.
  all: match goal with
       | Hn : is_number ?x |- _ =>
           assert (E : x = v) by congruence; rewrite E in Hn; contradiction
       end.
Qed.

Lemma executer_outil_raised (tool_name : string) (tool_input j : pydict) (fn : handler) :
  registry_find _TOOL_REGISTRY tool_name = Some fn ->
  (exists e, call fn tool_input j = (Raise e, j)) ->
  caught tool_name tool_input j.
Proof.
  intros Hfn [e He]. exists e. unfold executer_outil. rewrite Hfn, He. reflexivity.
Qed.

(** C4, amended: whatever the tool name and the input mapping, the executor
    returns a serialized payload and raises nothing: the unknown-tool
    payload, or the handler's answer, or, whenever binding the input to the
    handler's parameters or the handler itself raises, the payload with the
    error message, the tool name and the original input.  A missing
    required parameter, a parameter the handler does not have, and a
    string, an array, an object or null where the schema declares a number
    are such failures.  Parameter types are not validated: a wrongly-typed
    value the handler's operations accept is not a failure (a number as the
    journal writer's value; a boolean where a number is declared, which is
    computed with as 1 or 0: see the counterexample). *)
Theorem executer_outil_catches (tool_name : string) (tool_input j : pydict) :
  executor_answer tool_name tool_input j (executer_outil tool_name tool_input j)
  /\ (forall fn p,
         registry_find _TOOL_REGISTRY tool_name = Some fn ->
         In (p, None) (fn_params fn) ->
         dict_find tool_input (KStr p) = None ->
         caught tool_name tool_input j)
  /\ (forall fn k v,
         registry_find _TOOL_REGISTRY tool_name = Some fn ->
         In (KStr k, v) tool_input ->
         is_param (fn_params fn) k = false ->
         caught tool_name tool_input j)
  /\ (forall fn param v,
         registry_find _TOOL_REGISTRY tool_name = Some fn ->
         In (tool_name, param) number_parameters ->
         dict_find tool_input (KStr param) = Some v ->
         json_type v <> "number" ->
         json_type v <> "boolean" ->
         caught tool_name tool_input j).
Proof.
  split; [ | split; [ | split ] ].
  - unfold executer_outil.
    destruct (registry_find _TOOL_REGISTRY tool_name) as [fn | ] eqn:Hfn.
    + destruct (call fn tool_input j) as [[resultat | e] j'] eqn:Hcall.
      * apply (Handler_returned _ _ _ fn); assumption.
      * apply (Handler_raised _ _ _ fn); assumption.
    + apply Unknown_tool. exact Hfn.
  - intros fn p Hfn Hp Hfind. apply (executer_outil_raised _ _ _ fn Hfn).
    destruct (bind_arguments_missing fn tool_input p Hp Hfind) as [e He].
    exists e. unfold call. rewrite He. reflexivity.
  - intros fn k v Hfn Hin Hk. apply (executer_outil_raised _ _ _ fn Hfn).
    destruct (bind_arguments_unexpected fn tool_input k v Hin Hk) as [e He].
    exists e. unfold call. rewrite He. reflexivity.
  - intros fn param v Hfn Hin Hfind Hnumber Hboolean.
    apply (executer_outil_raised _ _ _ fn Hfn).
    apply (call_rejects_non_number tool_name param fn tool_input j v); try assumption.
    unfold is_number. destruct v; cbn [as_number]; intros H;
      first [ apply H; reflexivity | apply Hnumber; reflexivity | apply Hboolean; reflexivity ].
Qed.

(** The three failures at work. *)
Example executer_outil_missing_parameter :
  executer_outil "calculer_volume"
    [(KStr "longueur_m", VInt 10); (KStr "profondeur_m", VInt 2)] []
  = (json_dumps true
       (obj [("erreur", VStr "calculer_volume() missing 1 required positional argument: 'largeur_m'");
             ("outil", VStr "calculer_volume");
             ("input", VDict [(KStr "longueur_m", VInt 10); (KStr "profondeur_m", VInt 2)])]),
     []).
Proof. vm_compute. reflexivity. Qed.

Example executer_outil_unknown_parameter :
  executer_outil "memo_chantier"
    [(KStr "cle", VStr "note"); (KStr "valeur", VStr "x"); (KStr "page", VInt 3)] []
  = (json_dumps true
       (obj [("erreur", VStr "memo_chantier() got an unexpected keyword argument 'page'");
             ("outil", VStr "memo_chantier");
             ("input", VDict [(KStr "cle", VStr "note"); (KStr "valeur", VStr "x");
                              (KStr "page", VInt 3)])]),
     []).
Proof. vm_compute. reflexivity. Qed.

Example executer_outil_text_for_a_number :
  executer_outil "calculer_volume"
    [(KStr "longueur_m", VStr "dix"); (KStr "largeur_m", VInt 4);
     (KStr "profondeur_m", VInt 2)] []
  = (json_dumps true
       (obj [("erreur", VStr "can't multiply sequence by non-int of type 'float'");
             ("outil", VStr "calculer_volume");
             ("input", VDict [(KStr "longueur_m", VStr "dix"); (KStr "largeur_m", VInt 4);
                              (KStr "profondeur_m", VInt 2)])]),
     []).
Proof. vm_compute. reflexivity. Qed.

(** A text where a number is declared, repeated by a count beyond the
    index range. *)
Example executer_outil_count_beyond_index :
  executer_outil "calculer_volume"
    [(KStr "longueur_m", VStr "ab"); (KStr "largeur_m", VInt (- 10 ^ 30));
     (KStr "profondeur_m", VInt 1)] []
  = (json_dumps true
       (obj [("erreur", VStr "cannot fit 'int' into an index-sized integer");
             ("outil", VStr "calculer_volume");
             ("input", VDict [(KStr "longueur_m", VStr "ab");
                              (KStr "largeur_m", VInt (- 10 ^ 30));
                              (KStr "profondeur_m", VInt 1)])]),
     []).
Proof. vm_compute. reflexivity. Qed.

(** The executor keeps the keys of the journal unique. *)
Lemma executer_outil_unique_keys (tool_name : string) (tool_input j : pydict) :
  unique_keys j -> unique_keys (snd (executer_outil tool_name tool_input j)).
Proof.
  intros Hj. unfold executer_outil.
  destruct (registry_find _TOOL_REGISTRY tool_name) as [fn | ] eqn:Hfn; [ | exact Hj ].
  assert (Hcall : unique_keys (snd (call fn tool_input j))).
  { unfold call. destruct (bind_arguments fn tool_input) as [args | e]; [ | exact Hj ].
    unfold _TOOL_REGISTRY in Hfn. cbn [registry_find] in Hfn.
    repeat match type of Hfn with
           | (if ?c then _ else _) = _ => destruct c
           end; try discriminate Hfn; injection Hfn as <-; cbn [fn_body];
      unfold calculer_volume_fn, estimer_cout_reseau_fn, memo_chantier_fn; cbn [fn_body];
      repeat (destruct args as [ | ? args ]; try exact Hj).
    apply memo_chantier_unique_keys. exact Hj. }
  destruct (call fn tool_input j) as [[resultat | e] j']; exact Hcall.
Qed.

(** So does a whole batch of invocations: the journal the loop threads
    through its passes is a [dict] throughout. *)
Lemma run_tools_unique_keys (blocks : list block) :
  forall j, unique_keys j -> unique_keys (snd (run_tools blocks j)).
Proof.
  intros j Hj. rewrite run_tools_journal. unfold journal_after.
  revert j Hj. induction (invocations blocks) as [ | inv invs IH ]; intros j Hj; cbn.
  - exact Hj.
  - apply IH. apply executer_outil_unique_keys. exact Hj.
Qed.

(** * Further properties *)

(** ** How a run ends *)

Lemma loop_body_end_turn (create : client) (model : string) (st : state)
  (blocks : list block) :
  create (List.length (sent st)) (request_of model st) = Return (Response "end_turn" blocks) ->
  loop_body create model st
  = Break (State (messages st) (journal st) (iteration st + 1)
             (first_text blocks (reponse_finale st))
             (sent st ++ [request_of model st])).
Proof.
  intros Hresp. unfold loop_body. fold (request_of model st). rewrite Hresp.
  reflexivity.
Qed.

Lemma loop_body_raise (create : client) (model : string) (st : state) (e : exn) :
  create (List.length (sent st)) (request_of model st) = Raise e ->
  loop_body create model st
  = Propagate e (State (messages st) (journal st) (iteration st + 1) (reponse_finale st)
                   (sent st ++ [request_of model st])).
Proof.
  intros Hresp. unfold loop_body. fold (request_of model st). rewrite Hresp.
  reflexivity.
Qed.

(** While the service asks for tools the loop goes on: [n] such answers
    take it [n] passes further. *)
Lemma while_loop_tools_prefix (create : client) (model : string) (max_iterations : Z) :
  forall (n fuel : nat) (st : state),
    (forall i req, (List.length (sent st) <= i < List.length (sent st) + n)%nat ->
       exists blocks, create i req = Return (Response "tool_use" blocks)) ->
    iteration st + Z.of_nat n <= max_iterations ->
    exists st',
      while_loop (n + fuel) create model max_iterations st
      = while_loop fuel create model max_iterations st'
      /\ iteration st' = iteration st + Z.of_nat n
      /\ List.length (sent st') = (List.length (sent st) + n)%nat
      /\ reponse_finale st' = reponse_finale st.
Proof.
  induction n as [ | n IH ]; intros fuel st Htools Hmax.
  - exists st. repeat split; lia.
  - cbn [Nat.add while_loop].
    destruct (Z.ltb_spec (iteration st) max_iterations); [ | lia ].
    destruct (Htools (List.length (sent st)) (request_of model st)) as [blocks Hresp];
      [ lia | ].
    destruct (loop_body_tool_use create model st blocks Hresp) as (st1 & Hbody & Hrep).
    pose proof (loop_body_counts create model st) as [Hit Hsent].
    rewrite Hbody in *. cbn [state_of] in Hit, Hsent.
    assert (Hlen : List.length (sent st1) = S (List.length (sent st))).
    { rewrite Hsent, length_app. cbn. lia. }
    destruct (IH fuel st1) as (st' & Hloop & Hit' & Hsent' & Hrep').
    + intros i req Hi. apply Htools. lia.
    + lia.
    + exists st'. repeat split; try lia; congruence.
Qed.

(** The state in which the request number [k] is sent, after [k] answers
    that asked for tools. *)
Lemma run_agent_reaches (create : client) (j : pydict) (task model : string)
  (N : Z) (k : nat) :
  tools_until create k ->
  Z.of_nat k + 1 <= N ->
  exists st,
    while_loop (Z.to_nat N) create model N (initial task j)
    = while_loop (Z.to_nat N - k) create model N st
    /\ iteration st = Z.of_nat k
    /\ List.length (sent st) = k
    /\ reponse_finale st = "".
Proof.
  intros Htools HN.
  destruct (while_loop_tools_prefix create model N k (Z.to_nat N - k) (initial task j))
    as (st & Hloop & Hit & Hsent & Hrep).
  - intros i req Hi. apply Htools. cbn in Hi. lia.
  - cbn. lia.
  - exists st. replace (k + (Z.to_nat N - k))%nat with (Z.to_nat N) in Hloop by lia.
    repeat split; cbn in *; try lia; assumption.
Qed.

(** After [k] answers that asked for tools, the answer [end_turn] ends the
    run at once: [k + 1] requests, and the text of the first block that has
    one.  An answer without text (or with an empty one) gives the empty
    string, except in the last permitted iteration, where the check after
    the loop turns it into the forced-stop sentinel. *)
Lemma run_agent_end_turn (create : client) (j : pydict) (task model : string)
  (N : Z) (k : nat) (blocks : list block) :
  tools_until create k ->
  (forall req, create k req = Return (Response "end_turn" blocks)) ->
  Z.of_nat k + 1 <= N ->
  exists st,
    run_agent create j task model N
    = Some (Returned (if (N <=? Z.of_nat k + 1) && String.eqb (first_text blocks "") ""
                      then sentinel else first_text blocks "") st)
    /\ List.length (sent st) = S k
    /\ iteration st = Z.of_nat k + 1.
Proof.
  intros Htools Hend HN. unfold run_agent.
  destruct (run_agent_reaches create j task model N k Htools HN)
    as (st & Hloop & Hit & Hsent & Hrep).
  rewrite Hloop.
  destruct (Z.to_nat N - k)%nat as [ | fuel ] eqn:Hfuel; [ lia | ].
  cbn [while_loop]. destruct (Z.ltb_spec (iteration st) N); [ | lia ].
  rewrite (loop_body_end_turn create model st blocks) by (rewrite Hsent; apply Hend).
  unfold deliver. cbn [iteration reponse_finale]. rewrite Hit, Hrep.
  destruct ((N <=? Z.of_nat k + 1) && String.eqb (first_text blocks "") "");
    eexists; (split; [ reflexivity | cbn; rewrite length_app; cbn; split; lia ]).
Qed.

Lemma first_text_first (pre post : list block) (text held : string) :
  Forall (fun b => forall t, b <> TextBlock t) pre ->
  first_text (pre ++ TextBlock text :: post) held = text.
Proof.
  induction pre as [ | b pre IH ]; intros Hpre; cbn; [ reflexivity | ].
  inversion Hpre as [ | b' pre' Hb Hrest ]; subst.
  destruct b as [ t | id name input | type ]; [ destruct (Hb t); reflexivity | | ];
    apply IH; assumption.
Qed.

(** X1. Natural completion: when the service, after asking for tools [k]
    times, answers [end_turn], the run stops in that pass, having sent
    [k + 1] requests, and returns the text of the first text block of the
    answer, whatever comes before and after that block, an empty text
    included.  The one exception is an empty text in the last permitted
    iteration: the check after the loop sees an empty answer and a spent
    budget, and the forced-stop sentinel is returned in its place. *)
Theorem run_agent_returns_first_text (create : client) (j : pydict)
  (task model : string) (N : Z) (k : nat) (pre post : list block) (text : string) :
  tools_until create k ->
  (forall req, create k req = Return (Response "end_turn" (pre ++ TextBlock text :: post))) ->
  Forall (fun b => forall t, b <> TextBlock t) pre ->
  Z.of_nat k + 1 <= N ->
  exists st,
    run_agent create j task model N
    = Some (Returned (if (N <=? Z.of_nat k + 1) && String.eqb text "" then sentinel else text)
              st)
    /\ List.length (sent st) = S k.
Proof.
  intros Htools Hend Hpre HN.
  destruct (run_agent_end_turn create j task model N k _ Htools Hend HN)
    as (st & Hrun & Hsent & _).
  rewrite (first_text_first pre post text "" Hpre) in Hrun.
  exists st. split; assumption.
Qed.

Lemma run_agent_returns_first_text_witness :
  exists st,
    run_agent concluding_service [] "mission" "modele" 2 = Some (Returned "Volume : 80 m3." st)
    /\ List.length (sent st) = 2%nat.
Proof.
  apply (run_agent_returns_first_text concluding_service [] "mission" "modele" 2 1
           [OtherBlock "thinking"] [TextBlock "Fin."] "Volume : 80 m3.").
  - intros i req Hi. assert (i = O) as -> by lia. eexists. reflexivity.
  - intros req. reflexivity.
  - constructor; [ discriminate | constructor ].
  - lia.
Defined.

(** X2. Natural completion without text: when the [end_turn] answer has no
    text block at all, the run returns the empty string if iterations
    remain, and the forced-stop sentinel if the answer came in the last
    permitted iteration (the check after the loop sees an empty answer and
    a spent budget). *)
Theorem run_agent_end_turn_without_text (create : client) (j : pydict)
  (task model : string) (N : Z) (k : nat) (blocks : list block) :
  tools_until create k ->
  (forall req, create k req = Return (Response "end_turn" blocks)) ->
  Forall (fun b => forall t, b <> TextBlock t) blocks ->
  Z.of_nat k + 1 <= N ->
  exists st,
    run_agent create j task model N
    = Some (Returned (if Z.of_nat k + 1 <? N then "" else sentinel) st)
    /\ List.length (sent st) = S k.
Proof.
  intros Htools Hend Hblocks HN.
  destruct (run_agent_end_turn create j task model N k _ Htools Hend HN)
    as (st & Hrun & Hsent & _).
  assert (Hnone : first_text blocks "" = "").
  { clear - Hblocks. induction blocks as [ | b r IH ]; [ reflexivity | ].
    inversion Hblocks as [ | b' r' Hb Hr ]; subst.
    destruct b as [ t | id name input | type ]; [ destruct (Hb t); reflexivity | | ];
      cbn; apply IH; assumption. }
  rewrite Hnone in Hrun. cbn [String.eqb] in Hrun. rewrite andb_true_r in Hrun.
  exists st. split; [ | exact Hsent ]. rewrite Hrun.
  destruct (Z.leb_spec N (Z.of_nat k + 1)), (Z.ltb_spec (Z.of_nat k + 1) N);
    try lia; reflexivity.
Qed.

Lemma run_agent_end_turn_without_text_witness :
  exists st,
    run_agent silent_service [] "mission" "modele" 1
    = Some (Returned (if Z.of_nat 0 + 1 <? 1 then "" else sentinel) st)
    /\ List.length (sent st) = 1%nat.
Proof.
  apply (run_agent_end_turn_without_text silent_service [] "mission" "modele" 1 0 []).
  - intros i req Hi. lia.
  - intros req. reflexivity.
  - constructor.
  - lia.
Defined.

(** X3. A failure of the service is not caught in [run_agent]: when the
    request number [k] raises, after [k] answers that asked for tools, the
    exception leaves [run_agent], [k + 1] requests having been sent and no
    other one following. *)
Theorem run_agent_propagates (create : client) (j : pydict) (task model : string)
  (N : Z) (k : nat) (e : exn) :
  tools_until create k ->
  (forall req, create k req = Raise e) ->
  Z.of_nat k + 1 <= N ->
  exists st,
    run_agent create j task model N = Some (Raised e st)
    /\ List.length (sent st) = S k.
Proof.
  intros Htools Hraise HN. unfold run_agent.
  destruct (run_agent_reaches create j task model N k Htools HN)
    as (st & Hloop & Hit & Hsent & Hrep).
  rewrite Hloop.
  destruct (Z.to_nat N - k)%nat as [ | fuel ] eqn:Hfuel; [ lia | ].
  cbn [while_loop]. destruct (Z.ltb_spec (iteration st) N); [ | lia ].
  rewrite (loop_body_raise create model st e) by (rewrite Hsent; apply Hraise).
  eexists. split; [ reflexivity | ]. cbn. rewrite length_app. cbn. lia.
Qed.

Lemma run_agent_propagates_witness :
  exists st,
    run_agent limited_service [] "mission" "modele" 5
    = Some (Raised (Exn (APIError "RateLimitError") "rate limit") st)
    /\ List.length (sent st) = 2%nat.
Proof.
  apply (run_agent_propagates limited_service [] "mission" "modele" 5 1).
  - intros i req Hi. assert (i = O) as -> by lia. eexists. reflexivity.
  - intros req. reflexivity.
  - lia.
Defined.

(** ** What every run keeps *)

(** A rule for the loop: [R] holds of the states in which a pass starts,
    [E] of the state the loop ends in. *)
Lemma while_loop_rule (R E : state -> Prop) (create : client) (model : string)
  (max_iterations : Z) :
  (forall st, R st -> E st) ->
  (forall st, R st -> iteration st < max_iterations ->
     match loop_body create model st with
     | Continue st' => R st'
     | Break st' | Propagate _ st' => E st'
     end) ->
  forall (fuel : nat) (st : state) (l : loop_end),
    R st ->
    while_loop fuel create model max_iterations st = Some l ->
    E (end_state l).
Proof.
  intros Hexit Hstep.
  induction fuel as [ | fuel IH ]; intros st l HR Hloop; cbn [while_loop] in Hloop;
    destruct (Z.ltb_spec (iteration st) max_iterations) as [Hlt | Hge];
    try discriminate Hloop;
    try (injection Hloop as <-; apply Hexit; exact HR).
  specialize (Hstep st HR Hlt).
  destruct (loop_body create model st) as [st' | st' | e st'].
  - apply (IH st'); assumption.
  - injection Hloop as <-. exact Hstep.
  - injection Hloop as <-. exact Hstep.
Qed.

(** The same for a call: the check after the loop touches the answer
    only. *)
Lemma run_agent_rule (R E : state -> Prop) (create : client) (j : pydict)
  (task model : string) (max_iterations : Z) :
  (forall st, R st -> E st) ->
  (forall st, R st -> iteration st < max_iterations ->
     match loop_body create model st with
     | Continue st' => R st'
     | Break st' | Propagate _ st' => E st'
     end) ->
  (forall st answer,
     E st -> E (State (messages st) (journal st) (iteration st) answer (sent st))) ->
  R (initial task j) ->
  exists e, run_agent create j task model max_iterations = Some e
            /\ E (ending_state e).
Proof.
  intros Hexit Hstep Hanswer Hinit.
  destruct (run_agent_terminates create j task model max_iterations) as [e He].
  exists e. split; [ exact He | ].
  unfold run_agent in He.
  destruct (while_loop _ create model max_iterations (initial task j)) as [l | ] eqn:Hloop;
    [ | discriminate He ].
  pose proof (while_loop_rule R E create model max_iterations Hexit Hstep _ _ _ Hinit Hloop)
    as HE.
  destruct l as [st | e' st]; injection He as <-; cbn in *; [ | exact HE ].
  unfold deliver. destruct (_ && _); cbn; [ apply Hanswer | ]; exact HE.
Qed.

(** X4. The budget bounds every run: whatever the service answers, and
    however the run ends, no more than [max_iterations] requests are sent,
    and the iteration counter is the number of requests sent. *)
Theorem run_agent_within_budget (create : client) (j : pydict) (task model : string)
  (max_iterations : Z) :
  exists e,
    run_agent create j task model max_iterations = Some e
    /\ iteration (ending_state e) = Z.of_nat (List.length (sent (ending_state e)))
    /\ (List.length (sent (ending_state e)) <= Z.to_nat max_iterations)%nat.
Proof.
  pose (R := fun st : state =>
               iteration st = Z.of_nat (List.length (sent st))
               /\ (List.length (sent st) <= Z.to_nat max_iterations)%nat).
  apply (run_agent_rule R R); unfold R.
  - auto.
  - intros st [Hit Hle] Hlt.
    pose proof (loop_body_counts create model st) as [Hit' Hsent'].
    assert (Hgoal : iteration (state_of (loop_body create model st))
                    = Z.of_nat (List.length (sent (state_of (loop_body create model st))))
                    /\ (List.length (sent (state_of (loop_body create model st)))
                        <= Z.to_nat max_iterations)%nat).
    { rewrite Hit', Hsent', length_app. cbn. lia. }
    destruct (loop_body create model st); exact Hgoal.
  - intros st answer H. exact H.
  - cbn. lia.
Qed.

Lemma firstn_app_within {A : Type} (l r : list A) (n : nat) :
  (n <= List.length l)%nat -> firstn n (l ++ r) = firstn n l.
Proof.
  intros Hn. rewrite firstn_app. replace (n - List.length l)%nat with O by lia.
  cbn. apply app_nil_r.
Qed.

(** X5. The transcript is only ever appended to, and every request replays
    it whole: however the run ends, the transcript it leaves is the task
    followed by, for each pass that ran tools, the assistant's turn and the
    turn of its results (one for each invocation, with its id), and the
    request number [i] carried the first [2 i + 1] messages of that
    transcript, with the same model, token limit, instructions and
    catalog. *)
Theorem run_agent_replays_transcript (create : client) (j : pydict) (task model : string)
  (max_iterations : Z) :
  exists e,
    run_agent create j task model max_iterations = Some e
    /\ conversation task (messages (ending_state e))
    /\ (forall i req,
           nth_error (sent (ending_state e)) i = Some req ->
           req = Request model 4096 system_prompt TOOLS
                   (firstn (2 * i + 1) (messages (ending_state e)))).
Proof.
  pose (E := fun st : state =>
               conversation task (messages st)
               /\ (forall i req,
                      nth_error (sent st) i = Some req ->
                      req = Request model 4096 system_prompt TOOLS
                              (firstn (2 * i + 1) (messages st)))).
  pose (R := fun st : state =>
               E st /\ List.length (messages st) = (2 * List.length (sent st) + 1)%nat).
  apply (run_agent_rule R E); unfold R, E.
  - intros st [H _]. exact H.
  - intros st [[Hconv Hreq] Hlen] _.
    assert (Hlast : forall (msgs' : list message) i req,
               (forall n, (n <= List.length (messages st))%nat ->
                          firstn n msgs' = firstn n (messages st)) ->
               nth_error (sent st ++ [request_of model st]) i = Some req ->
               req = Request model 4096 system_prompt TOOLS (firstn (2 * i + 1) msgs')).
    { intros msgs' i req Hpre Hi.
      destruct (Nat.lt_ge_cases i (List.length (sent st))) as [Hlt | Hge].
      - rewrite nth_error_app1 in Hi by exact Hlt.
        rewrite Hpre by lia. apply Hreq. exact Hi.
      - rewrite nth_error_app2 in Hi by exact Hge.
        destruct (i - List.length (sent st))%nat as [ | n ] eqn:Hn;
          [ | destruct n; discriminate Hi ].
        injection Hi as <-. assert (i = List.length (sent st)) as -> by lia.
        rewrite Hpre by lia. rewrite firstn_all2 by lia. reflexivity. }
    unfold loop_body. fold (request_of model st).
    destruct (create _ _) as [resp | e]; [ | split; [ exact Hconv | ];
      intros i req; apply Hlast; reflexivity ].
    destruct (String.eqb (stop_reason resp) "end_turn");
      [ split; [ exact Hconv | ]; intros i req; apply Hlast; reflexivity | ].
    destruct (String.eqb (stop_reason resp) "tool_use");
      [ | split; [ exact Hconv | ]; intros i req; apply Hlast; reflexivity ].
    pose proof (run_tools_ids (response_content resp) (journal st)) as Hids.
    destruct (run_tools (response_content resp) (journal st)) as [results j1].
    cbn [fst] in Hids. cbn [messages sent].
    rewrite <- app_assoc. cbn [app].
    split; [ split | ].
    + apply conversation_pass; assumption.
    + intros i req. apply Hlast. intros n Hn. apply firstn_app_within. exact Hn.
    + rewrite !length_app. cbn. lia.
  - intros st answer H. exact H.
  - cbn. split; [ split | reflexivity ].
    + constructor.
    + intros i req Hi. destruct i; discriminate Hi.
Qed.

(** ** The journal under the executor and the loop *)

Lemma registry_find_cases (tool_name : string) (fn : handler) :
  registry_find _TOOL_REGISTRY tool_name = Some fn ->
  (tool_name = "calculer_volume" /\ fn = calculer_volume_fn)
  \/ (tool_name = "estimer_cout_reseau" /\ fn = estimer_cout_reseau_fn)
  \/ (tool_name = "memo_chantier" /\ fn = memo_chantier_fn).
Proof.
  unfold _TOOL_REGISTRY. cbn [registry_find].
  destruct (String.eqb_spec "calculer_volume" tool_name) as [<- | _];
    [ intros H; injection H as <-; auto | ].
  destruct (String.eqb_spec "estimer_cout_reseau" tool_name) as [<- | _];
    [ intros H; injection H as <-; auto | ].
  destruct (String.eqb_spec "memo_chantier" tool_name) as [<- | _];
    [ intros H; injection H as <-; auto | discriminate ].
Qed.

(** X6. Only the journal writer writes the journal, and only on success:
    a call of the executor leaves the journal as it was (an unknown tool,
    either calculator, any call that fails), or it is a call of
    [memo_chantier] whose [cle] is hashable, and the journal is the old one
    with that key set to the [valeur] given, which is also what the payload
    reports. *)
Theorem executer_outil_journal (tool_name : string) (tool_input j : pydict) :
  snd (executer_outil tool_name tool_input j) = j
  \/ exists cle valeur k,
       tool_name = "memo_chantier"
       /\ dict_find tool_input (KStr "cle") = Some cle
       /\ dict_find tool_input (KStr "valeur") = Some valeur
       /\ as_key cle = Return k
       /\ executer_outil tool_name tool_input j
          = (json_dumps false
               (obj [("status", VStr "mémorisé"); ("cle", cle);
                     ("journal", VDict (dict_set j k valeur))]),
             dict_set j k valeur).
Proof.
  unfold executer_outil.
  destruct (registry_find _TOOL_REGISTRY tool_name) as [fn | ] eqn:Hfn; [ | left; reflexivity ].
  unfold call.
  destruct (bind_arguments fn tool_input) as [args | e] eqn:Hbind; [ | left; reflexivity ].
  pose proof (bind_arguments_bound fn tool_input args Hbind) as Hargs.
  destruct (registry_find_cases tool_name fn Hfn) as [[-> ->] | [[-> ->] | [-> ->]]];
    cbn [fn_params map calculer_volume_fn estimer_cout_reseau_fn memo_chantier_fn] in Hargs;
    unfold bound_value in Hargs; cbn [fst snd] in Hargs;
    repeat (destruct args as [ | ? args ]; try discriminate Hargs);
    cbn [fn_body calculer_volume_fn estimer_cout_reseau_fn memo_chantier_fn].
  - destruct (calculer_volume _ _ _ _); left; reflexivity.
  - destruct (estimer_cout_reseau _ _ _); left; reflexivity.
  - cbn [map] in Hargs.
    destruct (dict_find tool_input (KStr "cle")) as [cle | ] eqn:Hcle;
      [ | discriminate Hargs ].
    destruct (dict_find tool_input (KStr "valeur")) as [valeur | ] eqn:Hvaleur;
      [ | discriminate Hargs ].
    injection Hargs as -> ->.
    unfold memo_chantier.
    destruct (as_key cle) as [k | e] eqn:Hkey; [ | left; reflexivity ].
    right. exists cle, valeur, k.
    split; [ reflexivity | ]. split; [ reflexivity | ]. split; [ reflexivity | ].
    split; [ exact Hkey | reflexivity ].
Qed.

Lemma dict_set_has_key (j : pydict) (k k' : pykey) (v : pyval) :
  has_key j k' -> has_key (dict_set j k v) k'.
Proof.
  unfold has_key. induction j as [ | [k0 v0] r IH ]; cbn; [ congruence | ].
  destruct (key_eqb k0 k) eqn:E; cbn; destruct (key_eqb k0 k'); try discriminate; auto.
Qed.

Lemma executer_outil_has_key (tool_name : string) (tool_input j : pydict) (k : pykey) :
  has_key j k -> has_key (snd (executer_outil tool_name tool_input j)) k.
Proof.
  intros Hk. unfold executer_outil.
  destruct (registry_find _TOOL_REGISTRY tool_name) as [fn | ] eqn:Hfn; [ | exact Hk ].
  assert (Hcall : has_key (snd (call fn tool_input j)) k).
  { unfold call. destruct (bind_arguments fn tool_input) as [args | e]; [ | exact Hk ].
    destruct (registry_find_cases tool_name fn Hfn) as [[_ ->] | [[_ ->] | [_ ->]]];
      cbn [fn_body calculer_volume_fn estimer_cout_reseau_fn memo_chantier_fn];
      repeat (destruct args as [ | ? args ]; try exact Hk).
    unfold memo_chantier. destruct (as_key _); [ | exact Hk ].
    cbn [snd]. apply dict_set_has_key. exact Hk. }
  destruct (call fn tool_input j) as [[r | e] j']; exact Hcall.
Qed.

Lemma run_tools_has_key (blocks : list block) (k : pykey) :
  forall j, has_key j k -> has_key (snd (run_tools blocks j)) k.
Proof.
  intros j Hj. rewrite run_tools_journal. unfold journal_after.
  revert j Hj. induction (invocations blocks) as [ | inv invs IH ]; intros j Hj; cbn.
  - exact Hj.
  - apply IH. apply executer_outil_has_key. exact Hj.
Qed.

(** X7. A run never takes anything out of the journal: whatever the service
    answers and however the run ends (a forced stop and a failure of the
    service included), every key the journal held before the call it still
    holds after it, and the journal is still a dictionary (at most one item
    under a key) if it was one. *)
Theorem run_agent_keeps_journal (create : client) (j : pydict) (task model : string)
  (max_iterations : Z) :
  exists e,
    run_agent create j task model max_iterations = Some e
    /\ (forall k, has_key j k -> has_key (journal (ending_state e)) k)
    /\ (unique_keys j -> unique_keys (journal (ending_state e))).
Proof.
  pose (R := fun st : state =>
               (forall k, has_key j k -> has_key (journal st) k)
               /\ (unique_keys j -> unique_keys (journal st))).
  apply (run_agent_rule R R); unfold R.
  - auto.
  - intros st [Hkeys Huniq] _.
    unfold loop_body.
    destruct (create _ _) as [resp | e]; [ | split; assumption ].
    destruct (String.eqb (stop_reason resp) "end_turn"); [ split; assumption | ].
    destruct (String.eqb (stop_reason resp) "tool_use"); [ | split; assumption ].
    pose proof (run_tools_has_key (response_content resp)) as Hk.
    pose proof (run_tools_unique_keys (response_content resp) (journal st)) as Hu.
    destruct (run_tools (response_content resp) (journal st)) as [results j1] eqn:Hrun.
    cbn [journal]. split.
    + intros k Hjk. specialize (Hk k (journal st) (Hkeys k Hjk)).
      rewrite Hrun in Hk. exact Hk.
    + intros Hj. cbn [snd] in Hu. apply Hu. apply Huniq. exact Hj.
  - intros st answer H. exact H.
  - cbn. split; auto.
Qed.

(** ** The exit code *)

Lemma while_loop_answers (create : client) (model : string) (max_iterations : Z) :
  always_answers create ->
  forall (fuel : nat) (st : state) (l : loop_end),
    while_loop fuel create model max_iterations st = Some l ->
    exists st', l = Exited st'.
Proof.
  intros Hanswers.
  induction fuel as [ | fuel IH ]; intros st l Hloop; cbn [while_loop] in Hloop;
    destruct (iteration st <? max_iterations); try discriminate Hloop;
    try (injection Hloop as <-; eexists; reflexivity).
  destruct (Hanswers (List.length (sent st)) (request_of model st)) as [resp Hresp].
  unfold loop_body in Hloop. fold (request_of model st) in Hloop. rewrite Hresp in Hloop.
  destruct (String.eqb (stop_reason resp) "end_turn");
    [ injection Hloop as <-; eexists; reflexivity | ].
  destruct (String.eqb (stop_reason resp) "tool_use");
    [ | injection Hloop as <-; eexists; reflexivity ].
  destruct (run_tools (response_content resp) (journal st)) as [results j1].
  apply (IH _ _ Hloop).
Qed.

Lemma run_agent_answers (create : client) (j : pydict) (task model : string)
  (max_iterations : Z) :
  always_answers create ->
  exists reponse st, run_agent create j task model max_iterations = Some (Returned reponse st).
Proof.
  intros Hanswers.
  destruct (run_agent_terminates create j task model max_iterations) as [e He].
  unfold run_agent in *.
  destruct (while_loop _ create model max_iterations (initial task j)) as [l | ] eqn:Hloop;
    [ | discriminate He ].
  destruct (while_loop_answers create model max_iterations Hanswers _ _ _ Hloop) as [st ->].
  unfold deliver. destruct (_ && _); eexists; eexists; reflexivity.
Qed.

(** X8. The exit code of [main]: 1, without [run_agent] being called, when
    the environment has no API key or an empty one; with a key, 0 whenever
    the service answers every request, whatever it answers and whatever the
    tools do with it (failing tools, an unknown signal and a forced stop
    included); and 1 when a request raises. *)
Theorem main_exit_code (args : namespace) (api_key : string) (create : client)
  (j : pydict) :
  api_key <> "" ->
  main args None create j = Some (1, None)
  /\ main args (Some "") create j = Some (1, None)
  /\ (always_answers create ->
      exists st, main args (Some api_key) create j = Some (0, Some st))
  /\ (forall (k : nat) (e : exn),
         tools_until create k ->
         (forall req, create k req = Raise e) ->
         Z.of_nat k + 1 <= arg_max_iterations args ->
         exists st, main args (Some api_key) create j = Some (1, Some st)).
Proof.
  intros Hkey.
  split; [ reflexivity | ]. split; [ reflexivity | ].
  destruct api_key as [ | c key ]; [ contradiction | ].
  split.
  - intros Hanswers.
    destruct (run_agent_answers create j (arg_task args) (arg_model args)
                (arg_max_iterations args) Hanswers) as (reponse & st & Hrun).
    exists st. cbn [main]. rewrite Hrun. reflexivity.
  - intros k e Htools Hraise Hbudget.
    destruct (run_agent_reaches create j (arg_task args) (arg_model args)
                (arg_max_iterations args) k Htools Hbudget)
      as (st & Hloop & Hit & Hsent & Hrep).
    cbn [main]. unfold run_agent. rewrite Hloop.
    destruct (Z.to_nat (arg_max_iterations args) - k)%nat as [ | fuel ] eqn:Hfuel; [ lia | ].
    cbn [while_loop].
    destruct (Z.ltb_spec (iteration st) (arg_max_iterations args)); [ | lia ].
    rewrite (loop_body_raise create (arg_model args) st e) by (rewrite Hsent; apply Hraise).
    eexists. reflexivity.
Qed.

Lemma main_exit_code_witness :
  main (Namespace "mission" "claude-sonnet-4-6" 10 false) None idle_service [] = Some (1, None)
  /\ main (Namespace "mission" "claude-sonnet-4-6" 10 false) (Some "") idle_service []
     = Some (1, None)
  /\ (exists st, main (Namespace "mission" "claude-sonnet-4-6" 10 false) (Some "sk-ant")
                   idle_service [] = Some (0, Some st))
  /\ (exists st, main (Namespace "mission" "claude-sonnet-4-6" 10 false) (Some "sk-ant")
                   limited_service [] = Some (1, Some st)).
Proof.
  assert (Hkey : "sk-ant"%string <> ""%string) by discriminate.
  destruct (main_exit_code (Namespace "mission" "claude-sonnet-4-6" 10 false) "sk-ant"
              idle_service [] Hkey) as (Hnone & Hempty & Hanswers & _).
  destruct (main_exit_code (Namespace "mission" "claude-sonnet-4-6" 10 false) "sk-ant"
              limited_service [] Hkey) as (_ & _ & _ & Hraises).
  split; [ exact Hnone | ]. split; [ exact Hempty | ]. split.
  - apply Hanswers. intros i req. eexists. reflexivity.
  - apply (Hraises 1%nat (Exn (APIError "RateLimitError") "rate limit")).
    + intros i req Hi. destruct i as [ | i ]; [ eexists; reflexivity | lia ].
    + intros req. reflexivity.
    + cbn. lia.
Defined.

(** ** The fallbacks of the two calculators *)

Lemma dict_get_densite (materiau : string) :
  dict_get _DENSITES (VStr materiau) 1.8%float = Return (densite_de materiau).
Proof. reflexivity. Qed.

(** X9. A material the table does not have is computed as earth: the
    calculator's answer for it is its answer for [terre] on the same
    dimensions, the [materiau] entry apart; and it fails exactly when that
    one does, with the same error. *)
Theorem calculer_volume_unknown_is_terre (materiau : string)
  (longueur_m largeur_m profondeur_m : pyval) :
  materiau <> "terre" -> materiau <> "beton" ->
  materiau <> "eau" -> materiau <> "gravier" ->
  calculer_volume longueur_m largeur_m profondeur_m (VStr materiau)
  = with_entry "materiau" (VStr materiau)
      (calculer_volume longueur_m largeur_m profondeur_m (VStr "terre")).
Proof.
  intros H1 H2 H3 H4. unfold calculer_volume.
  rewrite !dict_get_densite, (densite_de_unknown materiau H1 H2 H3 H4).
  change (densite_de "terre") with 1.8%float.
  destruct (py_mul longueur_m largeur_m) as [surface | e]; [ | reflexivity ].
  cbn [bind].
  destruct (py_mul surface profondeur_m) as [volume | e]; [ | reflexivity ].
  cbn [bind].
  destruct (py_mul volume (VFloat 1.8)) as [masse | e]; [ | reflexivity ].
  cbn [bind].
  destruct (py_round2 volume) as [v2 | e]; [ | reflexivity ].
  cbn [bind].
  destruct (py_round2 masse) as [m2 | e]; reflexivity.
Qed.

Lemma calculer_volume_unknown_is_terre_witness :
  calculer_volume (VInt 10) (VFloat 4.5) (VInt 2) (VStr "sable")
  = with_entry "materiau" (VStr "sable")
      (calculer_volume (VInt 10) (VFloat 4.5) (VInt 2) (VStr "terre")).
Proof.
  apply (calculer_volume_unknown_is_terre "sable" (VInt 10) (VFloat 4.5) (VInt 2));
    discriminate.
Defined.

Lemma estimation_with_entry (fourchette : Z * Z) (t t' longueur_m diametre_mm : pyval) :
  estimation fourchette t longueur_m diametre_mm
  = with_entry "type_reseau" t (estimation fourchette t' longueur_m diametre_mm).
Proof.
  unfold estimation.
  destruct (py_truediv diametre_mm (VInt 200)) as [rapport | e]; [ | reflexivity ].
  cbn [bind].
  destruct (math_sqrt rapport) as [coeff | e]; [ | reflexivity ].
  cbn [bind].
  destruct (py_mul (VInt (fst fourchette)) longueur_m) as [a | e]; [ | reflexivity ].
  cbn [bind].
  destruct (py_mul a (VFloat coeff)) as [b | e]; [ | reflexivity ].
  cbn [bind].
  destruct (py_round b) as [cmin | e]; [ | reflexivity ].
  cbn [bind].
  destruct (py_mul (VInt (snd fourchette)) longueur_m) as [c | e]; [ | reflexivity ].
  cbn [bind].
  destruct (py_mul c (VFloat coeff)) as [d | e]; [ | reflexivity ].
  cbn [bind].
  destruct (py_round d) as [cmax | e]; reflexivity.
Qed.

(** X10. A network kind the table does not have is priced as sanitation:
    the default range is the range of [assainissement], so the estimator's
    answer for the unknown kind is its answer for [assainissement] on the
    same length and diameter, the [type_reseau] entry apart, and it fails
    exactly when that one does. *)
Theorem estimer_cout_reseau_unknown_is_assainissement (type_reseau : string)
  (longueur_m diametre_mm : pyval) :
  type_reseau <> "eau_potable" ->
  type_reseau <> "assainissement" ->
  type_reseau <> "pluvial" ->
  type_reseau <> "telecom" ->
  estimer_cout_reseau (VStr type_reseau) longueur_m diametre_mm
  = with_entry "type_reseau" (VStr type_reseau)
      (estimer_cout_reseau (VStr "assainissement") longueur_m diametre_mm).
Proof.
  intros H1 H2 H3 H4.
  assert (Hfind : dict_find _COUTS_RESEAU (KStr type_reseau) = None).
  { unfold _COUTS_RESEAU. cbn [dict_find]. rewrite !key_eqb_str.
    apply not_eq_sym, String.eqb_neq in H1, H2, H3, H4.
    rewrite H1, H2, H3, H4. reflexivity. }
  rewrite (estimer_cout_reseau_unknown type_reseau _ _ Hfind).
  rewrite (estimer_cout_reseau_known "assainissement" (200, 500) _ _ eq_refl).
  apply estimation_with_entry.
Qed.

Lemma estimer_cout_reseau_unknown_is_assainissement_witness :
  estimer_cout_reseau (VStr "gaz") (VInt 350) (VInt 300)
  = with_entry "type_reseau" (VStr "gaz")
      (estimer_cout_reseau (VStr "assainissement") (VInt 350) (VInt 300)).
Proof.
  apply (estimer_cout_reseau_unknown_is_assainissement "gaz" (VInt 350) (VInt 300));
    discriminate.
Defined.

(** X11. A diameter whose ratio to 200 is negative is refused before the
    length is looked at: the estimator raises ValueError, [math domain
    error], whatever the length (a number or not), and the executor turns
    it into the error payload, the journal untouched. *)
Theorem estimer_cout_reseau_negative_diameter (type_reseau longueur_m diametre_mm : pyval)
  (k : pykey) (rapport : float) (j : pydict) :
  as_key type_reseau = Return k ->
  py_truediv diametre_mm (VInt 200) = Return rapport ->
  (rapport <? 0)%float = true ->
  estimer_cout_reseau type_reseau longueur_m diametre_mm
  = Raise (Exn ValueError "math domain error")
  /\ executer_outil "estimer_cout_reseau"
       [(KStr "type_reseau", type_reseau); (KStr "longueur_m", longueur_m);
        (KStr "diametre_mm", diametre_mm)] j
     = (json_dumps true
          (obj [("erreur", VStr "math domain error");
                ("outil", VStr "estimer_cout_reseau");
                ("input", VDict [(KStr "type_reseau", type_reseau);
                                 (KStr "longueur_m", longueur_m);
                                 (KStr "diametre_mm", diametre_mm)])]),
        j).
Proof.
  intros Hkey Hdiv Hneg.
  assert (Hraise : estimer_cout_reseau type_reseau longueur_m diametre_mm
                   = Raise (Exn ValueError "math domain error")).
  { unfold estimer_cout_reseau, dict_get. rewrite Hkey. cbn [bind].
    rewrite Hdiv. cbn [bind]. unfold math_sqrt. rewrite Hneg. reflexivity. }
  split; [ exact Hraise | ].
  assert (Hfn : registry_find _TOOL_REGISTRY "estimer_cout_reseau"
                = Some estimer_cout_reseau_fn) by reflexivity.
  assert (Hcall : call estimer_cout_reseau_fn
                    [(KStr "type_reseau", type_reseau); (KStr "longueur_m", longueur_m);
                     (KStr "diametre_mm", diametre_mm)] j
                  = (estimer_cout_reseau type_reseau longueur_m diametre_mm, j))
    by reflexivity.
  unfold executer_outil. rewrite Hfn, Hcall, Hraise. reflexivity.
Qed.

Lemma estimer_cout_reseau_negative_diameter_witness :
  estimer_cout_reseau (VStr "pluvial") (VStr "cent") (VInt (-300))
  = Raise (Exn ValueError "math domain error")
  /\ executer_outil "estimer_cout_reseau"
       [(KStr "type_reseau", VStr "pluvial"); (KStr "longueur_m", VStr "cent");
        (KStr "diametre_mm", VInt (-300))] []
     = (json_dumps true
          (obj [("erreur", VStr "math domain error");
                ("outil", VStr "estimer_cout_reseau");
                ("input", VDict [(KStr "type_reseau", VStr "pluvial");
                                 (KStr "longueur_m", VStr "cent");
                                 (KStr "diametre_mm", VInt (-300))])]),
        []).
Proof.
  apply (estimer_cout_reseau_negative_diameter (VStr "pluvial") (VStr "cent") (VInt (-300))
           (KStr "pluvial") (-1.5)%float []).
  - reflexivity.
  - vm_compute. reflexivity.
  - vm_compute. reflexivity.
Defined.

(** ** The catalog and the registry *)

Lemma filter_nil {A : Type} (f : A -> bool) (l : list A) :
  (forall x, In x l -> f x = false) -> filter f l = [].
Proof.
  induction l as [ | a r IH ]; cbn; intros H; [ reflexivity | ].
  rewrite (H a (or_introl eq_refl)). apply IH. intros x Hx. apply H. right. exact Hx.
Qed.

(** Keyword arguments that are all strings naming parameters, and that give
    every parameter without a default, are bound. *)
Lemma bind_arguments_accepts (fn : handler) (kwargs : pydict) :
  (forall k, In k (map fst kwargs) ->
             exists name, k = KStr name /\ is_param (fn_params fn) name = true) ->
  (forall name, In (name, None) (fn_params fn) -> has_key kwargs (KStr name)) ->
  bind_arguments fn kwargs = Return (all_bound (map (bound_value kwargs) (fn_params fn))).
Proof.
  intros Hkeys Hreq. unfold bind_arguments.
  assert (Hstr : forallb is_str_key (map fst kwargs) = true).
  { apply forallb_forall. intros k Hk. destruct (Hkeys k Hk) as (name & -> & _). reflexivity. }
  rewrite Hstr. cbn [negb].
  rewrite filter_nil.
  - rewrite filter_nil; [ reflexivity | ].
    intros [name [v | ]] Hp; unfold bound_value; cbn [fst snd].
    + destruct (dict_find kwargs (KStr name)); reflexivity.
    + destruct (dict_find kwargs (KStr name)) eqn:Hfind; [ reflexivity | ].
      exfalso. exact (Hreq name Hp Hfind).
  - intros name Hname. apply in_map_iff in Hname. destruct Hname as (k & <- & Hk).
    destruct (Hkeys k Hk) as (name & -> & Hparam). cbn [key_name]. rewrite Hparam. reflexivity.
Qed.

Lemma catalog_names_registry :
  catalog_names = map fst _TOOL_REGISTRY.
Proof. vm_compute. reflexivity. Qed.

Lemma schema_agrees (tool : string) (fn : handler) :
  registry_find _TOOL_REGISTRY tool = Some fn ->
  fn_name fn = tool
  /\ schema_properties tool = map fst (fn_params fn)
  /\ schema_required tool
     = map fst (filter (fun p => match snd p with None => true | Some _ => false end)
                  (fn_params fn)).
Proof.
  intros Hfn.
  destruct (registry_find_cases tool fn Hfn) as [[-> ->] | [[-> ->] | [-> ->]]];
    (split; [ reflexivity | split; vm_compute; reflexivity ]).
Qed.

Lemma is_param_In (params : list (string * option pyval)) (name : string) :
  In name (map fst params) -> is_param params name = true.
Proof.
  intros Hin. unfold is_param. apply existsb_exists.
  apply in_map_iff in Hin. destruct Hin as (p & <- & Hp).
  exists p. split; [ exact Hp | apply String.eqb_refl ].
Qed.

(** X12. An input that conforms to the schema the catalog gives a tool
    (string keys among the described properties, every required property
    present) always reaches the handler: the registry has a handler under
    the tool's name, its parameters are the properties the schema
    describes, in their order, and the binding of the input neither misses
    an argument nor meets an unexpected keyword, so the handler's body
    runs, each parameter on the input's value for it or else on its
    default. *)
Theorem schema_input_reaches_handler (tool : string) (tool_input j : pydict) :
  In tool catalog_names ->
  (forall k, In k (map fst tool_input) ->
             exists name, k = KStr name /\ In name (schema_properties tool)) ->
  (forall name, In name (schema_required tool) -> has_key tool_input (KStr name)) ->
  exists fn args,
    registry_find _TOOL_REGISTRY tool = Some fn
    /\ fn_name fn = tool
    /\ map fst (fn_params fn) = schema_properties tool
    /\ map Some args = map (bound_value tool_input) (fn_params fn)
    /\ call fn tool_input j = fn_body fn args j.
Proof.
  intros Htool Hkeys Hreq.
  assert (Hfn : exists fn, registry_find _TOOL_REGISTRY tool = Some fn).
  { rewrite catalog_names_registry in Htool. cbn in Htool.
    destruct Htool as [<- | [<- | [<- | []]]]; eexists; reflexivity. }
  destruct Hfn as [fn Hfn].
  destruct (schema_agrees tool fn Hfn) as (Hname & Hprops & Hrequired).
  assert (Hbind : bind_arguments fn tool_input
                  = Return (all_bound (map (bound_value tool_input) (fn_params fn)))).
  { apply bind_arguments_accepts.
    - intros k Hk. destruct (Hkeys k Hk) as (name & -> & Hin).
      exists name. split; [ reflexivity | ].
      apply is_param_In. rewrite <- Hprops. exact Hin.
    - intros name Hin. apply Hreq. rewrite Hrequired.
      apply in_map_iff. exists (name, None). split; [ reflexivity | ].
      apply filter_In. split; [ exact Hin | reflexivity ]. }
  exists fn, (all_bound (map (bound_value tool_input) (fn_params fn))).
  split; [ exact Hfn | ]. split; [ exact Hname | ]. split; [ symmetry; exact Hprops | ].
  split; [ exact (bind_arguments_bound fn tool_input _ Hbind) | ].
  unfold call. rewrite Hbind. reflexivity.
Qed.

Lemma schema_input_reaches_handler_witness :
  exists fn args,
    registry_find _TOOL_REGISTRY "estimer_cout_reseau" = Some fn
    /\ fn_name fn = "estimer_cout_reseau"
    /\ map fst (fn_params fn) = schema_properties "estimer_cout_reseau"
    /\ map Some args
       = map (bound_value [(KStr "longueur_m", VInt 350); (KStr "type_reseau", VStr "pluvial")])
           (fn_params fn)
    /\ call fn [(KStr "longueur_m", VInt 350); (KStr "type_reseau", VStr "pluvial")] []
       = fn_body fn args [].
Proof.
  apply (schema_input_reaches_handler "estimer_cout_reseau"
           [(KStr "longueur_m", VInt 350); (KStr "type_reseau", VStr "pluvial")] []).
  - vm_compute. auto.
  - intros k Hk. cbn in Hk. destruct Hk as [<- | [<- | []]].
    + exists "longueur_m". split; [ reflexivity | vm_compute; auto ].
    + exists "type_reseau". split; [ reflexivity | vm_compute; auto ].
  - intros name Hname. vm_compute in Hname.
    destruct Hname as [<- | [<- | []]]; discriminate.
Defined.

(** ** What a failure payload is made of *)

Lemma ascii_only_app (a b : string) :
  ascii_only (a ++ b) = ascii_only a && ascii_only b.
Proof.
  induction a as [ | c a IH ]; cbn [append ascii_only]; [ reflexivity | ].
  rewrite IH. apply andb_assoc.
Qed.

Lemma ascii_only_substring (s : string) :
  ascii_only s = true -> forall n m, ascii_only (substring n m s) = true.
Proof.
  induction s as [ | c s IH ]; intros H n m.
  - destruct n, m; reflexivity.
  - cbn [ascii_only] in H. apply andb_prop in H. destruct H as [Hc Hs].
    destruct n as [ | n ]; cbn [substring].
    + destruct m as [ | m ]; [ reflexivity | ].
      cbn [ascii_only]. rewrite Hc. exact (IH Hs 0%nat m).
    + exact (IH Hs n m).
Qed.

Lemma ascii_only_repeat_string (n : nat) (s : string) :
  ascii_only s = true -> ascii_only (repeat_string n s) = true.
Proof.
  intros H. induction n as [ | n IH ]; cbn [repeat_string]; [ reflexivity | ].
  rewrite ascii_only_app, H, IH. reflexivity.
Qed.

Lemma ascii_only_string_of_uint (d : Decimal.uint) :
  ascii_only (NilEmpty.string_of_uint d) = true.
Proof.
  induction d; cbn [NilEmpty.string_of_uint ascii_only]; try rewrite IHd; reflexivity.
Qed.

Lemma ascii_only_str_int (z : Z) : ascii_only (str_int z) = true.
Proof.
  unfold str_int, NilZero.string_of_int, NilZero.string_of_uint.
  destruct (Z.to_int z) as [d | d]; destruct d; cbn [ascii_only];
    try rewrite ascii_only_string_of_uint; reflexivity.
Qed.

Ltac solve_ascii_only :=
  repeat first
    [ reflexivity
    | assumption
    | rewrite ascii_only_app
    | apply andb_true_intro; split
    | apply ascii_only_str_int
    | apply ascii_only_substring
    | apply ascii_only_repeat_string
    | match goal with
      | |- ascii_only (if ?c then _ else _) = true => destruct c
      | |- ascii_only (let (_, _) := ?p in _) = true => destruct p
      end ].

Lemma ascii_only_float_repr (f : float) : ascii_only (float_repr f) = true.
Proof.
  unfold float_repr.
  destruct (Prim2SF f) as [s | s | | s m e]; try (destruct s; reflexivity); [ reflexivity | ].
  unfold shortest_digits.
  destruct (if 0 <=? e then _ else _) as [n d].
  destruct (first_digits _ _ _ _ _ _) as [c0 x0].
  destruct (strip_zeros _ _ _) as [c x].
  unfold zeros. solve_ascii_only.
Qed.

Lemma ascii_only_json_float (f : float) : ascii_only (json_float f) = true.
Proof.
  unfold json_float.
  destruct (Prim2SF f) as [s | s | | s m e] eqn:E;
    try apply ascii_only_float_repr; [ destruct s | ]; reflexivity.
Qed.

Lemma ascii_only_hex_digit (n : N) :
  (N_of_ascii (hex_digit (n mod 16)) <? 128)%N = true.
Proof.
  assert (H : (n mod 16 < 16)%N) by (apply N.mod_lt; discriminate).
  unfold hex_digit. apply N.ltb_lt.
  destruct (N.ltb_spec (n mod 16) 10); rewrite N_ascii_embedding; lia.
Qed.

Lemma ascii_only_u_escape (cp : N) : ascii_only (u_escape cp) = true.
Proof.
  unfold u_escape. rewrite !ascii_only_app. cbn [ascii_only].
  rewrite !ascii_only_hex_digit. reflexivity.
Qed.

Lemma ascii_only_u_escape_point (cp : N) : ascii_only (u_escape_point cp) = true.
Proof.
  unfold u_escape_point. destruct (cp <? 65536)%N;
    [ | rewrite ascii_only_app, !ascii_only_u_escape ]; auto using ascii_only_u_escape.
Qed.

Lemma ascii_only_escape_ascii (c : ascii) :
  (N_of_ascii c <? 128)%N = true -> ascii_only (escape_ascii true c) = true.
Proof.
  intros Hc. unfold escape_ascii.
  repeat match goal with
         | |- ascii_only (if ?b then _ else _) = true => destruct b
         end;
    try reflexivity; try apply ascii_only_u_escape.
  cbn [ascii_only]. rewrite Hc. reflexivity.
Qed.

Lemma ascii_only_escape_string (s : string) :
  ascii_only (escape_string true s) = true.
Proof.
  assert (H : forall n s, (String.length s <= n)%nat -> ascii_only (escape_string true s) = true).
  { clear s. induction n as [ | n IH ]; intros s Hlen.
    - destruct s; [ reflexivity | cbn in Hlen; lia ].
    - destruct s as [ | c r ]; [ reflexivity | ].
      cbn [String.length] in Hlen. cbn [escape_string negb].
      destruct (N_of_ascii c <? 128)%N eqn:Hc.
      + rewrite ascii_only_app, (ascii_only_escape_ascii c Hc). apply IH. lia.
      + destruct (N_of_ascii c <? 224)%N; [ | destruct (N_of_ascii c <? 240)%N ].
        * destruct r as [ | c1 r1 ]; [ apply ascii_only_u_escape_point | ].
          rewrite ascii_only_app, ascii_only_u_escape_point. apply IH.
          cbn [String.length] in Hlen. lia.
        * destruct r as [ | c1 [ | c2 r2 ] ]; try apply ascii_only_u_escape_point.
          rewrite ascii_only_app, ascii_only_u_escape_point. apply IH.
          cbn [String.length] in Hlen. lia.
        * destruct r as [ | c1 [ | c2 [ | c3 r3 ] ] ]; try apply ascii_only_u_escape_point.
          rewrite ascii_only_app, ascii_only_u_escape_point. apply IH.
          cbn [String.length] in Hlen. lia. }
  exact (H (String.length s) s (le_n _)).
Qed.

Lemma ascii_only_json_string (s : string) : ascii_only (json_string true s) = true.
Proof.
  unfold json_string. rewrite !ascii_only_app, ascii_only_escape_string. reflexivity.
Qed.

Lemma ascii_only_json_key (k : pykey) : ascii_only (json_key true k) = true.
Proof.
  destruct k as [ | b | z | f | s ]; cbn [json_key];
    try apply ascii_only_json_string;
    rewrite ?ascii_only_app, ?ascii_only_str_int, ?ascii_only_json_float;
    try destruct b; reflexivity.
Qed.

Lemma ascii_only_join (sep : string) (l : list string) :
  ascii_only sep = true -> Forall (fun s => ascii_only s = true) l ->
  ascii_only (join sep l) = true.
Proof.
  intros Hsep Hl. induction Hl as [ | x r Hx Hr IH ]; [ reflexivity | ].
  cbn [join]. destruct r as [ | y r ]; [ exact Hx | ].
  rewrite !ascii_only_app, Hx, Hsep, IH. reflexivity.
Qed.

(** Under [ensure_ascii], [json.dumps] writes ASCII only. *)
Lemma ascii_only_json_dumps (v : pyval) : ascii_only (json_dumps true v) = true.
Proof.
  revert v. fix IHv 1. intros v.
  destruct v as [ | b | z | f | s | l | d ]; cbn [json_dumps].
  - reflexivity.
  - destruct b; reflexivity.
  - apply ascii_only_str_int.
  - apply ascii_only_json_float.
  - apply ascii_only_json_string.
  - rewrite !ascii_only_app. cbn [ascii_only andb].
    rewrite ascii_only_join; [ reflexivity | reflexivity | ].
    induction l as [ | x l IH ]; constructor; [ apply IHv | exact IH ].
  - rewrite !ascii_only_app. cbn [ascii_only andb].
    rewrite ascii_only_join; [ reflexivity | reflexivity | ].
    induction d as [ | [k x] d IH ]; constructor; [ | exact IH ].
    rewrite !ascii_only_app, ascii_only_json_key, IHv. reflexivity.
Qed.

Lemma append_assoc (a b c : string) : ((a ++ b) ++ c = a ++ (b ++ c))%string.
Proof. induction a as [ | x a IH ]; cbn [append]; [ | rewrite IH ]; reflexivity. Qed.

(** Without [ensure_ascii] a string is escaped character by character. *)
Lemma escape_string_app (a b : string) :
  escape_string false (a ++ b) = (escape_string false a ++ escape_string false b)%string.
Proof.
  induction a as [ | c a IH ]; [ reflexivity | ].
  cbn [append escape_string negb].
  destruct (N_of_ascii c <? 128)%N; rewrite IH; [ symmetry; apply append_assoc | reflexivity ].
Qed.

Lemma ascii_only_join_false (sep x : string) (l : list string) :
  In x l -> ascii_only x = false -> ascii_only (join sep l) = false.
Proof.
  intros Hin Hx. induction l as [ | y r IH ]; [ destruct Hin | ].
  cbn [join]. destruct r as [ | z r ].
  - destruct Hin as [-> | []]. exact Hx.
  - rewrite !ascii_only_app. destruct Hin as [-> | Hin].
    + rewrite Hx. reflexivity.
    + rewrite (IH Hin). rewrite !andb_false_r. reflexivity.
Qed.

(** An answer with an entry whose text has a character beyond ASCII is
    written with that character, when [ensure_ascii] is off. *)
Lemma not_ascii_entry (items : list (string * pyval)) (name s : string) :
  In (name, VStr s) items ->
  ascii_only (escape_string false s) = false ->
  ascii_only (json_dumps false (obj items)) = false.
Proof.
  intros Hin Hs. unfold obj. cbn [json_dumps]. rewrite map_map.
  rewrite !ascii_only_app.
  rewrite (ascii_only_join_false ", "
             (json_key false (KStr name) ++ ": " ++ json_dumps false (VStr s))).
  - reflexivity.
  - apply in_map_iff. exists (name, VStr s). split; [ reflexivity | exact Hin ].
  - cbn [json_dumps]. unfold json_string. rewrite !ascii_only_app, Hs.
    rewrite !andb_false_r. reflexivity.
Qed.

Lemma calculer_volume_not_ascii (longueur_m largeur_m profondeur_m materiau r : pyval) :
  calculer_volume longueur_m largeur_m profondeur_m materiau = Return r ->
  ascii_only (json_dumps false r) = false.
Proof.
  unfold calculer_volume.
  destruct (py_mul longueur_m largeur_m) as [surface | e]; [ | discriminate ]. cbn [bind].
  destruct (py_mul surface profondeur_m) as [volume | e]; [ | discriminate ]. cbn [bind].
  destruct (dict_get _DENSITES materiau 1.8%float) as [densite | e]; [ | discriminate ].
  cbn [bind].
  destruct (py_mul volume (VFloat densite)) as [masse | e]; [ | discriminate ]. cbn [bind].
  destruct (py_round2 volume) as [v2 | e]; [ | discriminate ]. cbn [bind].
  destruct (py_round2 masse) as [m2 | e]; [ | discriminate ]. cbn [bind].
  intros H. injection H as <-.
  eapply not_ascii_entry; [ right; right; right; left; reflexivity | ].
  rewrite !escape_string_app, !ascii_only_app.
  change (ascii_only (escape_string false "m × ")) with false.
  rewrite !andb_false_r. reflexivity.
Qed.

Lemma estimer_cout_reseau_not_ascii (type_reseau longueur_m diametre_mm r : pyval) :
  estimer_cout_reseau type_reseau longueur_m diametre_mm = Return r ->
  ascii_only (json_dumps false r) = false.
Proof.
  unfold estimer_cout_reseau.
  destruct (dict_get _COUTS_RESEAU type_reseau (200, 500)) as [fourchette | e];
    [ | discriminate ]. cbn [bind].
  destruct (py_truediv diametre_mm (VInt 200)) as [rapport | e]; [ | discriminate ].
  cbn [bind].
  destruct (math_sqrt rapport) as [coeff | e]; [ | discriminate ]. cbn [bind].
  destruct (py_mul (VInt (fst fourchette)) longueur_m) as [a | e]; [ | discriminate ].
  cbn [bind].
  destruct (py_mul a (VFloat coeff)) as [b | e]; [ | discriminate ]. cbn [bind].
  destruct (py_round b) as [cmin | e]; [ | discriminate ]. cbn [bind].
  destruct (py_mul (VInt (snd fourchette)) longueur_m) as [c | e]; [ | discriminate ].
  cbn [bind].
  destruct (py_mul c (VFloat coeff)) as [d | e]; [ | discriminate ]. cbn [bind].
  destruct (py_round d) as [cmax | e]; [ | discriminate ]. cbn [bind].
  intros H. injection H as <-.
  eapply not_ascii_entry; [ do 5 right; left; reflexivity | vm_compute; reflexivity ].
Qed.

Lemma memo_chantier_not_ascii (cle valeur r : pyval) (j j' : pydict) :
  memo_chantier cle valeur j = (Return r, j') ->
  ascii_only (json_dumps false r) = false.
Proof.
  unfold memo_chantier. destruct (as_key cle) as [k | e]; [ | discriminate ].
  intros H. injection H as <- _.
  eapply not_ascii_entry; [ left; reflexivity | vm_compute; reflexivity ].
Qed.

Lemma call_not_ascii (tool_name : string) (fn : handler) (tool_input j j' : pydict)
  (r : pyval) :
  registry_find _TOOL_REGISTRY tool_name = Some fn ->
  call fn tool_input j = (Return r, j') ->
  ascii_only (json_dumps false r) = false.
Proof.
  intros Hfn. unfold call.
  destruct (bind_arguments fn tool_input) as [args | e]; [ | discriminate ].
  destruct (registry_find_cases tool_name fn Hfn) as [[_ ->] | [[_ ->] | [_ ->]]];
    cbn [fn_body calculer_volume_fn estimer_cout_reseau_fn memo_chantier_fn];
    repeat (destruct args as [ | ? args ]; try discriminate).
  - intros H. injection H as H _. exact (calculer_volume_not_ascii _ _ _ _ _ H).
  - intros H. injection H as H _. exact (estimer_cout_reseau_not_ascii _ _ _ _ H).
  - apply memo_chantier_not_ascii.
Qed.

(** X13. A payload of the executor is pure ASCII exactly when the call
    failed.  The two failure payloads (unknown tool; error of the handler
    or of the binding of its arguments) are serialized with the default
    [ensure_ascii]: whatever the tool name, the error message and the
    input hold, every character beyond ASCII is written as an escape.  The
    answer of a handler is serialized with [ensure_ascii=False], and each
    handler's answer has such a character (the multiplication sign of
    [dimensions], the [note], the [status]), written as it is. *)
Theorem executer_outil_ascii_iff_failure (tool_name : string) (tool_input j : pydict) :
  ascii_only (fst (executer_outil tool_name tool_input j)) = true
  <-> (registry_find _TOOL_REGISTRY tool_name = None
       \/ exists fn e,
            registry_find _TOOL_REGISTRY tool_name = Some fn
            /\ fst (call fn tool_input j) = Raise e).
Proof.
  unfold executer_outil.
  destruct (registry_find _TOOL_REGISTRY tool_name) as [fn | ] eqn:Hfn.
  - destruct (call fn tool_input j) as [[r | e] j'] eqn:Hcall; cbn [fst]; split.
    + intros H. rewrite (call_not_ascii tool_name fn tool_input j j' r Hfn Hcall) in H.
      discriminate H.
    + intros [H | (fn' & e & Hfn' & H)]; [ discriminate H | ].
      injection Hfn' as <-. rewrite Hcall in H. discriminate H.
    + intros _. right. exists fn, e. rewrite Hcall. split; reflexivity.
    + intros _. apply ascii_only_json_dumps.
  - cbn [fst]. split; [ intros _; left; reflexivity | intros _; apply ascii_only_json_dumps ].
Qed.

(** ** The text of a cost *)

Lemma without_replace_char (s : string) :
  without " "%char (replace_char ","%char " "%char s)
  = string_of_list_ascii (filter kept (list_ascii_of_string s)).
Proof.
  induction s as [ | c s IH ]; [ reflexivity | ].
  cbn [replace_char list_ascii_of_string filter]. unfold kept at 1.
  destruct (Ascii.eqb_spec c ","%char) as [-> | Hc]; cbn [without negb andb].
  - exact IH.
  - destruct (Ascii.eqb c " "%char); cbn [negb string_of_list_ascii]; rewrite IH; reflexivity.
Qed.

Lemma list_ascii_of_string_app (a b : string) :
  list_ascii_of_string (a ++ b) = (list_ascii_of_string a ++ list_ascii_of_string b)%list.
Proof. induction a as [ | c a IH ]; cbn; [ | rewrite IH ]; reflexivity. Qed.

Lemma string_of_list_ascii_app (a b : list ascii) :
  string_of_list_ascii (a ++ b) = (string_of_list_ascii a ++ string_of_list_ascii b)%string.
Proof. induction a as [ | c a IH ]; cbn; [ | rewrite IH ]; reflexivity. Qed.

(** The separators are the only characters [commas] adds. *)
Lemma filter_kept_commas (l : list ascii) :
  filter kept (commas l) = filter kept l.
Proof.
  assert (H : forall n l, (List.length l <= n)%nat -> filter kept (commas l) = filter kept l).
  { clear l. induction n as [ | n IH ]; intros l Hlen.
    - destruct l; [ reflexivity | cbn in Hlen; lia ].
    - destruct l as [ | a [ | b [ | c [ | d r ] ] ] ]; try reflexivity.
      change (commas (a :: b :: c :: d :: r))
        with (a :: b :: c :: ","%char :: commas (d :: r)).
      change (a :: b :: c :: ","%char :: commas (d :: r))
        with (([a; b; c] ++ [","%char]) ++ commas (d :: r))%list.
      rewrite !filter_app, (IH (d :: r)) by (cbn [List.length] in *; lia).
      change (filter kept [","%char]) with (@nil ascii).
      rewrite app_nil_r, <- filter_app. reflexivity. }
  exact (H (List.length l) l (le_n _)).
Qed.

Lemma is_digit_kept (c : ascii) : is_digit c = true -> kept c = true.
Proof.
  unfold is_digit, kept. intros H. apply andb_prop in H. destruct H as [H1 H2].
  apply N.leb_le in H1.
  destruct (Ascii.eqb_spec c ","%char) as [-> | _]; [ cbn in H1; lia | ].
  destruct (Ascii.eqb_spec c " "%char) as [-> | _]; [ cbn in H1; lia | reflexivity ].
Qed.

Lemma filter_kept_digits (l : list ascii) :
  forallb is_digit l = true -> filter kept l = l.
Proof.
  induction l as [ | c l IH ]; cbn [forallb filter]; intros H; [ reflexivity | ].
  apply andb_prop in H. destruct H as [Hc Hl].
  rewrite (is_digit_kept c Hc), (IH Hl). reflexivity.
Qed.

Lemma string_of_uint_digits (d : Decimal.uint) :
  forallb is_digit (list_ascii_of_string (NilEmpty.string_of_uint d)) = true.
Proof.
  induction d; cbn [NilEmpty.string_of_uint list_ascii_of_string forallb];
    try rewrite IHd; reflexivity.
Qed.

Lemma str_int_digits (z : Z) :
  forallb is_digit (list_ascii_of_string (str_int (Z.abs z))) = true.
Proof.
  unfold str_int, NilZero.string_of_int, NilZero.string_of_uint.
  destruct z as [ | p | p ]; cbn [Z.abs Z.to_int]; [ reflexivity | | ];
    destruct (Pos.to_uint p); cbn [list_ascii_of_string forallb];
      try rewrite string_of_uint_digits; reflexivity.
Qed.

Lemma str_int_sign (z : Z) :
  ((if (z <? 0)%Z then "-" else "") ++ str_int (Z.abs z))%string = str_int z.
Proof. destruct z; reflexivity. Qed.

(** X14. The text of a cost reads back as the cost: without its spaces it
    is the decimal writing of the integer, sign included, followed by the
    currency; the thousands separators of the format are all replaced, no
    comma is left. *)
Theorem format_cout_reads_back (cout : Z) :
  without " "%char (format_cout cout) = (str_int cout ++ "€HT")%string
  /\ without ","%char (format_cout cout) = format_cout cout.
Proof.
  split.
  - unfold format_cout. rewrite without_replace_char.
    unfold format_comma.
    rewrite !list_ascii_of_string_app, !filter_app, list_ascii_of_string_of_list_ascii.
    rewrite <- (rev_involutive (filter kept (rev _))).
    rewrite <- filter_rev. rewrite rev_involutive, filter_kept_commas, <- filter_rev.
    rewrite rev_involutive.
    rewrite (filter_kept_digits _ (str_int_digits cout)).
    rewrite !string_of_list_ascii_app, string_of_list_ascii_of_string.
    rewrite <- (str_int_sign cout).
    destruct (cout <? 0); reflexivity.
  - unfold format_cout. generalize (format_comma cout ++ " €HT")%string. intros s.
    induction s as [ | c s IH ]; [ reflexivity | ].
    cbn [replace_char].
    destruct (Ascii.eqb_spec c ","%char) as [-> | Hc]; cbn [without].
    + change (Ascii.eqb " " ",") with false. cbv iota. rewrite IH. reflexivity.
    + apply Ascii.eqb_neq in Hc. rewrite Hc, IH. reflexivity.
Qed.
